(** * Shoe product discovery: the search tool adapters and the agent loop

    A shallow embedding of [models.py], [tools.py] and the tool-calling
    loop [ShoeDiscoveryAgent.run] of [agent.py], and the properties of them
    that the specification states.

    Conventions.
    - A Python [str] is the list of its code points ([list N]); slicing,
      [split] and [strip] then work on characters as Python's do. A [float]
      is a binary64 float.
    - A call that may raise returns a [Result]: [Ok v] or [Raise e].
    - The collaborators the repository does not implement are parameters:
      the search provider's clients and the language model are fields of
      the objects that call them, pydantic's [model_dump_json] is a
      variable of the section that uses it. Within one run a client and the
      model are functions of their arguments (the working message list
      grows at every iteration, so no two model invocations of a run have
      the same argument).
    - [asyncio.gather(..., return_exceptions=True)] yields, in the order of
      the names, what each lookup returned or raised.
    - [while True] is a loop with a bound on its iterations; [StillRunning]
      is the outcome of a run that the bound stopped. *)

From Stdlib Require Import PrimFloat.
From stdpp Require Import base option list gmap strings.

#[local] Set Warnings "-inexact-float".
#[local] Open Scope N_scope.
#[local] Open Scope list_scope.

(* ===================================================================== *)
(** ** Python strings *)
(* ===================================================================== *)

Abbreviation str := (list N).

(** A literal of the source, as its code points. *)
Definition py (s : string) : str :=
  List.map (fun a => N.of_nat (Ascii.nat_of_ascii a)) (String.list_ascii_of_string s).

Definition comma : N := 44.

(** [str.isspace] of one character: the code points that CPython's
    [_PyUnicode_IsWhitespace] accepts. *)
Definition is_space (c : N) : bool :=
  ((9 <=? c) && (c <=? 13)) || ((28 <=? c) && (c <=? 32))
  || (c =? 133) || (c =? 160) || (c =? 5760)
  || ((8192 <=? c) && (c <=? 8202))
  || (c =? 8232) || (c =? 8233) || (c =? 8239) || (c =? 8287) || (c =? 12288).

Fixpoint lstrip (s : str) : str :=
  match s with
  | c :: s' => if is_space c then lstrip s' else s
  | [] => []
  end.

Definition rstrip (s : str) : str := rev (lstrip (rev s)).

(** [s.strip()] *)
Definition strip (s : str) : str := rstrip (lstrip s).

(** [s.split(sep)] for a one-character separator: never the empty list,
    and the empty string splits into one empty piece. *)
Fixpoint split (sep : N) (s : str) : list str :=
  match s with
  | [] => [[]]
  | c :: s' =>
      if c =? sep then [] :: split sep s'
      else match split sep s' with
           | p :: ps => (c :: p) :: ps
           | [] => [[c]]
           end
  end.

(** [sep.join(parts)] *)
Fixpoint join (sep : str) (parts : list str) : str :=
  match parts with
  | [] => []
  | [p] => p
  | p :: ps => p ++ sep ++ join sep ps
  end.

(** Truth value of a string: [if n] holds for the non-empty ones. *)
Definition truthy (s : str) : bool :=
  match s with [] => false | _ => true end.

(** Truth value of a list: [not l] holds for the empty one. *)
Definition truthy_list {A} (l : list A) : bool :=
  match l with [] => false | _ => true end.

(* ===================================================================== *)
(** ** Exceptions and results *)
(* ===================================================================== *)

Inductive Exception :=
| ValueError (msg : str)
| ToolException (msg : str)
| TransportError (msg : str).   (* whatever a provider or model client raises *)

(** [str(e)] *)
Definition exc_str (e : Exception) : str :=
  match e with
  | ValueError m | ToolException m | TransportError m => m
  end.

Inductive Result (A : Type) :=
| Ok (a : A)
| Raise (e : Exception).
Arguments Ok {A} a.
Arguments Raise {A} e.

Definition bind {A B} (r : Result A) (k : A -> Result B) : Result B :=
  match r with
  | Ok a => k a
  | Raise e => Raise e
  end.

(** [try: body  except Exception as e: handler e] *)
Definition try_except {A} (body : Result A) (handler : Exception -> Result A) : Result A :=
  match body with
  | Ok a => Ok a
  | Raise e => handler e
  end.

Notation "'let!' x ':=' r 'in' k" := (bind r (fun x => k))
  (at level 10, x name, r at level 100, k at level 200).

Definition is_ok {A} (r : Result A) : bool :=
  match r with Ok _ => true | Raise _ => false end.

(* ===================================================================== *)
(** ** models.py *)
(* ===================================================================== *)

Record ShoeSource := {
  title : str;
  url : str;
  content : str;
  score : float;
}.

Record ShoeSpecs := {
  name : str;
  heel_to_toe_drop : option str;
  stack_height : option str;
  cushioning : option str;
  weight : option str;
  summary : str;
  sources : list ShoeSource;
}.

(** [ShoeSpecs(name=.., summary=..)]: the other fields take their defaults. *)
Definition ShoeSpecs_of (n s : str) (srcs : list ShoeSource) : ShoeSpecs :=
  {| name := n; heel_to_toe_drop := None; stack_height := None;
     cushioning := None; weight := None; summary := s; sources := srcs |}.

Record ShoeSearchResult := {
  query : str;
  shoes : list ShoeSpecs;
  raw_answer : option str;
}.

(* ===================================================================== *)
(** ** The search provider's interface *)
(* ===================================================================== *)

(** One entry of the provider's ["results"]; a key may be absent. *)
Record RawResult := {
  raw_title : option str;
  raw_url : option str;
  raw_content : option str;
  raw_score : option float;
}.

(** The provider's response dictionary, read at the keys the tools use. *)
Record Response := {
  resp_answer : option str;
  resp_results : option (list RawResult);
}.

(** The keyword arguments of [client.search]. *)
Record SearchParams := {
  sp_query : str;
  sp_search_depth : str;
  sp_max_results : N;
  sp_include_answer : str;
  sp_include_domains : option (list str);
}.

Definition SHOE_DOMAINS : list str :=
  [ py "runrepeat.com"; py "solereview.com"; py "believeintherun.com";
    py "roadrunnersports.com"; py "runnersworld.com"; py "doctorsofrunning.com" ].

(* ===================================================================== *)
(** ** tools.py: ShoeSearchTool *)
(* ===================================================================== *)

Module ShoeSearchTool.

Record t := {
  client : SearchParams -> Result Response;
  use_domain_filter : bool;
  search_depth : str;
}.

Definition tool_name : str := py "shoe_specs_search".

(** [ShoeSearchTool()] around a given client. *)
Definition new (c : SearchParams -> Result Response) : t :=
  {| client := c; use_domain_filter := true; search_depth := py "advanced" |}.

Definition _build_query (shoe_name : str) : str :=
  shoe_name ++ py " running shoe specs heel drop stack height weight".

Definition _parse_response (shoe_name : str) (response : Response) : ShoeSpecs :=
  let sources :=
    List.map
      (fun r =>
         {| title := default [] (raw_title r);
            url := default [] (raw_url r);
            content := take 500 (default [] (raw_content r));
            score := default 0.0%float (raw_score r) |})
      (List.filter
         (fun r => PrimFloat.ltb 0.5%float (default 0%float (raw_score r)))
         (default [] (resp_results response))) in
  {| name := shoe_name;
     heel_to_toe_drop := None; stack_height := None;
     cushioning := None; weight := None;
     summary := default (py "No specifications found.") (resp_answer response);
     sources := take 3 sources |}.

Section run.
Variable model_dump_json : ShoeSpecs -> str.

Definition _run (self : t) (shoe_name : str) : Result str :=
  try_except
    (let query := _build_query shoe_name in
     let search_params :=
       {| sp_query := query;
          sp_search_depth := search_depth self;
          sp_max_results := 5;
          sp_include_answer := py "advanced";
          sp_include_domains :=
            if use_domain_filter self then Some SHOE_DOMAINS else None |} in
     let! response := client self search_params in
     let specs := _parse_response shoe_name response in
     Ok (model_dump_json specs))
    (fun e =>
       Raise (ToolException
                (py "Failed to search for " ++ shoe_name ++ py ": " ++ exc_str e))).

End run.

End ShoeSearchTool.

(* ===================================================================== *)
(** ** tools.py: AsyncShoeSearchTool *)
(* ===================================================================== *)

Module AsyncShoeSearchTool.

Record t := {
  async_client : SearchParams -> Result Response;
  use_domain_filter : bool;
  search_depth : str;
  max_shoes : nat;
}.

Definition tool_name : str := py "multi_shoe_search".

(** [AsyncShoeSearchTool()] around a given client. *)
Definition new (c : SearchParams -> Result Response) : t :=
  {| async_client := c; use_domain_filter := true;
     search_depth := py "advanced"; max_shoes := 5 |}.

Definition _build_query (shoe_name : str) : str :=
  shoe_name ++ py " running shoe specs heel drop stack height weight".

Definition _parse_response (shoe_name : str) (response : Response) : ShoeSpecs :=
  let sources :=
    List.map
      (fun r =>
         {| title := default [] (raw_title r);
            url := default [] (raw_url r);
            content := take 500 (default [] (raw_content r));
            score := default 0.0%float (raw_score r) |})
      (List.filter
         (fun r => PrimFloat.ltb 0.5%float (default 0%float (raw_score r)))
         (default [] (resp_results response))) in
  {| name := shoe_name;
     heel_to_toe_drop := None; stack_height := None;
     cushioning := None; weight := None;
     summary := default (py "No specifications found.") (resp_answer response);
     sources := take 3 sources |}.

Definition _search_single (self : t) (shoe_name : str) : Result ShoeSpecs :=
  let query := _build_query shoe_name in
  let search_params :=
    {| sp_query := query;
       sp_search_depth := search_depth self;
       sp_max_results := 5;
       sp_include_answer := py "advanced";
       sp_include_domains :=
         if use_domain_filter self then Some SHOE_DOMAINS else None |} in
  let! response := async_client self search_params in
  Ok (_parse_response shoe_name response).

(** The first two statements of [_arun]: the names the input asks for. *)
Definition parse_names (self : t) (shoe_names : str) : list str :=
  let names := List.map strip (split comma shoe_names) in
  take (max_shoes self) (List.filter truthy names).

(** One turn of the loop over [zip(names, results)]. *)
Definition shoe_of (nr : str * Result ShoeSpecs) : ShoeSpecs :=
  match nr.2 with
  | Raise e => ShoeSpecs_of nr.1 (py "Search failed: " ++ exc_str e) []
  | Ok result => result
  end.

(** The body of [_arun]'s [try], up to the [ShoeSearchResult] it builds.
    [asyncio.gather(..., return_exceptions=True)] returns, in the order of
    the names, what each [_search_single] returned or raised. *)
Definition search_result (self : t) (shoe_names : str) : Result ShoeSearchResult :=
  let names := parse_names self shoe_names in
  if truthy_list names
  then
    let results := List.map (_search_single self) names in
    let shoes := List.map shoe_of (zip names results) in
    Ok {| query := shoe_names; shoes := shoes; raw_answer := None |}
  else Raise (ToolException (py "No valid shoe names provided")).

Section run.
Variable model_dump_json : ShoeSearchResult -> str.

Definition _arun (self : t) (shoe_names : str) : Result str :=
  try_except
    (let! search_result := search_result self shoe_names in
     Ok (model_dump_json search_result))
    (fun e =>
       Raise (ToolException (py "Multi-shoe search failed: " ++ exc_str e))).

(** [asyncio.run(self._arun(shoe_names))] *)
Definition _run (self : t) (shoe_names : str) : Result str :=
  _arun self shoe_names.

End run.

End AsyncShoeSearchTool.

(* ===================================================================== *)
(** ** tools.py: the tool registry *)
(* ===================================================================== *)

(** [get_shoe_tools()]'s two tools are instances of langchain's [BaseTool];
    the loop reads a tool's name and calls its [_arun] when it has one, its
    [_run] otherwise. *)
Record BaseTool := {
  tool_name : str;
  tool_arun : option (str -> Result str);
  tool_run : str -> Result str;
}.

Section registry.
Variable client : SearchParams -> Result Response.
Variable async_client : SearchParams -> Result Response.
Variable dump_specs : ShoeSpecs -> str.
Variable dump_result : ShoeSearchResult -> str.

(** [ShoeSearchTool] defines no [_arun]: it has the one it inherits from
    [BaseTool], which runs [_run]. *)
Definition get_shoe_tools : list BaseTool :=
  [ {| tool_name := ShoeSearchTool.tool_name;
       tool_arun := Some (ShoeSearchTool._run dump_specs (ShoeSearchTool.new client));
       tool_run := ShoeSearchTool._run dump_specs (ShoeSearchTool.new client) |};
    {| tool_name := AsyncShoeSearchTool.tool_name;
       tool_arun :=
         Some (AsyncShoeSearchTool._arun dump_result (AsyncShoeSearchTool.new async_client));
       tool_run :=
         AsyncShoeSearchTool._run dump_result (AsyncShoeSearchTool.new async_client) |} ].

End registry.

(* ===================================================================== *)
(** ** agent.py *)
(* ===================================================================== *)

(** The arguments of a tool call: a dictionary, or any other value, of
    which the loop uses [str(tool_input)]. *)
Inductive ToolInput :=
| Dict (d : gmap str str)
| NotDict (repr : str).

Record ToolCall := {
  call_name : str;
  call_args : ToolInput;
  call_id : str;
}.

(** The model's response: its text and the tool calls it asks for. *)
Record AIMessage := {
  ai_content : str;
  tool_calls : list ToolCall;
}.

Inductive Message :=
| SystemMessage (text : str)
| HumanMessage (text : str)
| AssistantMessage (response : AIMessage)
| ToolMessage (text : str) (tool_call_id : str).

Definition SYSTEM_PROMPT : str := py
"You are a running shoe expert assistant. Your job is to help users find
and compare running shoe specifications.

When users ask about shoes, use the available tools to search for accurate specifications:
- Use `shoe_specs_search` for a single shoe lookup
- Use `multi_shoe_search` when comparing 2+ shoes (more efficient)

Key specs to focus on:
- Heel-to-toe drop (mm): The height difference between heel and forefoot
- Stack height (mm): Total cushioning thickness under the heel/forefoot
- Cushioning: Type and level (plush, firm, responsive, etc.)
- Weight: In ounces or grams

When presenting results:
1. Start with a brief overview of each shoe
2. Present key specs clearly (use a table for comparisons)
3. Highlight notable differences when comparing
4. Cite your sources

If a shoe isn't found, suggest similar alternatives or ask for clarification.".

Record ShoeDiscoveryAgent := {
  tools : list BaseTool;
  llm_with_tools : list Message -> Result AIMessage;   (* [ainvoke] *)
}.

(** [d.get(k, dflt)] *)
Definition dict_get (d : gmap str str) (k dflt : str) : str :=
  default dflt (d !! k).

(** The [for tool in self.tools] of [_execute_tool], over the tools left. *)
Fixpoint execute_among (registered : list BaseTool)
    (name : str) (tool_input : ToolInput) : Result str :=
  match registered with
  | tool :: rest =>
      if bool_decide (tool_name tool = name) then
        match tool_arun tool with
        | Some _arun =>
            let input_val :=
              match tool_input with
              | Dict d =>
                  dict_get d (py "shoe_names") (dict_get d (py "shoe_name") [])
              | NotDict repr => repr
              end in
            _arun input_val
        | None =>
            let input_val :=
              match tool_input with
              | Dict d =>
                  dict_get d (py "shoe_name") (dict_get d (py "shoe_names") [])
              | NotDict repr => repr
              end in
            tool_run tool input_val
        end
      else execute_among rest name tool_input
  | [] => Raise (ValueError (py "Tool " ++ name ++ py " not found"))
  end.

Definition _execute_tool (self : ShoeDiscoveryAgent)
    (name : str) (tool_input : ToolInput) : Result str :=
  execute_among (tools self) name tool_input.

(** The [for tool_call in response.tool_calls] of [run]: the working list
    as the loop leaves it, and the exception that ended it, if one did. *)
Fixpoint for_tool_calls (self : ShoeDiscoveryAgent)
    (calls : list ToolCall) (messages : list Message)
    : list Message * option Exception :=
  match calls with
  | [] => (messages, None)
  | tool_call :: rest =>
      match _execute_tool self (call_name tool_call) (call_args tool_call) with
      | Raise e => (messages, Some e)
      | Ok tool_result =>
          for_tool_calls self rest
            (messages ++ [ToolMessage tool_result (call_id tool_call)])
      end
  end.

(** How a call of [run] ends. *)
Inductive Outcome :=
| Returned (text : str)
| Raised (e : Exception)
| StillRunning.            (* the iterations allowed were used up *)

(** A call of [run] as an observer sees it: how it ended, the working
    message list at that point, and the message lists the model was invoked
    with, oldest first. *)
Record Run := {
  outcome : Outcome;
  working : list Message;
  invocations : list (list Message);
}.

Definition invoked (messages : list Message) (r : Run) : Run :=
  {| outcome := outcome r; working := working r;
     invocations := messages :: invocations r |}.

(** [while True: ...], at most [fuel] iterations of it. *)
Fixpoint run_loop (self : ShoeDiscoveryAgent) (fuel : nat)
    (messages : list Message) : Run :=
  match fuel with
  | O => {| outcome := StillRunning; working := messages; invocations := [] |}
  | S fuel' =>
      match llm_with_tools self messages with
      | Raise e =>
          {| outcome := Raised e; working := messages; invocations := [messages] |}
      | Ok response =>
          if negb (truthy_list (tool_calls response)) then
            {| outcome := Returned (ai_content response);
               working := messages; invocations := [messages] |}
          else
            match for_tool_calls self (tool_calls response)
                    (messages ++ [AssistantMessage response]) with
            | (messages', Some e) =>
                {| outcome := Raised e; working := messages';
                   invocations := [messages] |}
            | (messages', None) => invoked messages (run_loop self fuel' messages')
            end
      end
  end.

(** The working list [run] starts from. *)
Definition seed (user_input : str) (chat_history : option (list Message))
    : list Message :=
  let chat_history := default [] chat_history in
  [SystemMessage SYSTEM_PROMPT] ++ chat_history ++ [HumanMessage user_input].

Definition run (self : ShoeDiscoveryAgent) (fuel : nat)
    (user_input : str) (chat_history : option (list Message)) : Run :=
  run_loop self fuel (seed user_input chat_history).

(* ===================================================================== *)
(** ** tools.py, agent.py: configuration and construction *)
(* ===================================================================== *)

(** [os.getenv("TAVILY_API_KEY")] read from the environment, then the
    test [if not api_key]: an unset key and an empty one both fail. *)
Definition get_tavily_api_key (environ : gmap str str) : Result str :=
  let api_key := environ !! py "TAVILY_API_KEY" in
  match api_key with
  | Some key =>
      if negb (truthy key)
      then Raise (ValueError
                    (py "TAVILY_API_KEY environment variable is required. "
                     ++ py "Get your key at https://tavily.com"))
      else Ok key
  | None =>
      Raise (ValueError
               (py "TAVILY_API_KEY environment variable is required. "
                ++ py "Get your key at https://tavily.com"))
  end.

Definition get_openai_api_key (environ : gmap str str) : Result str :=
  let api_key := environ !! py "OPENAI_API_KEY" in
  match api_key with
  | Some key =>
      if negb (truthy key)
      then Raise (ValueError
                    (py "OPENAI_API_KEY environment variable is required. "
                     ++ py "Get your key at https://platform.openai.com/api-keys"))
      else Ok key
  | None =>
      Raise (ValueError
               (py "OPENAI_API_KEY environment variable is required. "
                ++ py "Get your key at https://platform.openai.com/api-keys"))
  end.

Section construction.
Context {LLM : Type}.
(** The constructors of the provider's clients and of the model, and
    [llm.bind_tools]. *)
Variable TavilyClient : str -> SearchParams -> Result Response.
Variable AsyncTavilyClient : str -> SearchParams -> Result Response.
Variable ChatOpenAI : str -> float -> str -> LLM.
Variable bind_tools : LLM -> list BaseTool -> list Message -> Result AIMessage.
Variable dump_specs : ShoeSpecs -> str.
Variable dump_result : ShoeSearchResult -> str.

(** [ShoeSearchTool.__init__]: a client passed in is kept, otherwise one is
    made from the key of the environment. *)
Definition ShoeSearchTool_init (environ : gmap str str)
    (client : option (SearchParams -> Result Response)) : Result ShoeSearchTool.t :=
  match client with
  | None =>
      let! api_key := get_tavily_api_key environ in
      Ok (ShoeSearchTool.new (TavilyClient api_key))
  | Some c => Ok (ShoeSearchTool.new c)
  end.

Definition AsyncShoeSearchTool_init (environ : gmap str str)
    (async_client : option (SearchParams -> Result Response))
    : Result AsyncShoeSearchTool.t :=
  match async_client with
  | None =>
      let! api_key := get_tavily_api_key environ in
      Ok (AsyncShoeSearchTool.new (AsyncTavilyClient api_key))
  | Some c => Ok (AsyncShoeSearchTool.new c)
  end.

(** [get_shoe_tools()], with the two constructions it starts with. *)
Definition get_shoe_tools_from (environ : gmap str str) : Result (list BaseTool) :=
  let! single := ShoeSearchTool_init environ None in
  let! multi := AsyncShoeSearchTool_init environ None in
  Ok (get_shoe_tools (ShoeSearchTool.client single)
        (AsyncShoeSearchTool.async_client multi) dump_specs dump_result).

(** [ShoeDiscoveryAgent.__init__] *)
Definition ShoeDiscoveryAgent_init (environ : gmap str str)
    (model_name : str) (temperature : float) : Result ShoeDiscoveryAgent :=
  let! api_key := get_openai_api_key environ in
  let llm := ChatOpenAI model_name temperature api_key in
  let! registered := get_shoe_tools_from environ in
  Ok {| tools := registered; llm_with_tools := bind_tools llm registered |}.

End construction.

(* ===================================================================== *)
(** ** agent.py: quick_search *)
(* ===================================================================== *)

Section quick_search.
Context {Json : Type}.
Variable json_loads : str -> Result Json.
Variable model_dump_json : ShoeSearchResult -> str.


End quick_search.

(* ===================================================================== *)
(** ** agent.py: stream *)
(* ===================================================================== *)

(** What the loop uses of the model's message chunks: a chunk's text, the
    sum of two chunks, and the tool calls of a (summed) chunk. *)
Class AIMessageChunk (Chunk : Type) := {
  chunk_content : Chunk -> str;
  chunk_add : Chunk -> Chunk -> Chunk;
  chunk_tool_calls : Chunk -> list ToolCall;
}.

(** The notice yielded before each tool execution. *)
Definition searching_notice : str :=
  [10; 10; 128269] ++ py " Searching for shoe specs..." ++ [10; 10].

(** How the consumption of a stream ends. *)
Inductive StreamEnd :=
| Finished
| Failed (e : Exception)
| Unfinished.              (* the iterations allowed were used up *)

(** A call of [stream] consumed to its end: the fragments yielded, in
    order, how it ended, the working message list at that point, and the
    message lists the model was invoked with. *)
Record Stream := {
  yielded : list str;
  ended : StreamEnd;
  stream_working : list Message;
  stream_invocations : list (list Message);
}.

Definition streamed (fragments : list str) (messages : list Message) (s : Stream)
    : Stream :=
  {| yielded := fragments ++ yielded s; ended := ended s;
     stream_working := stream_working s;
     stream_invocations := messages :: stream_invocations s |}.

Section stream.
Context {Chunk : Type} `{AIMessageChunk Chunk}.
(** [llm_with_tools.astream(messages)]: the chunks it delivers, and the
    exception that ends it, if one does. *)
Variable astream : list Message -> list Chunk * option Exception.

(** The [async for chunk in ...] over the chunks delivered: the fragments
    yielded and [full_response] at the end. *)
Fixpoint consume (chunks : list Chunk) (full_response : option Chunk)
    : list str * option Chunk :=
  match chunks with
  | [] => ([], full_response)
  | chunk :: rest =>
      let fragment :=
        if truthy (chunk_content chunk) then [chunk_content chunk] else [] in
      let full_response :=
        match full_response with
        | None => chunk
        | Some full => chunk_add full chunk
        end in
      let '(fragments, full_response) := consume rest (Some full_response) in
      (fragment ++ fragments, full_response)
  end.

(** The accumulated chunk, as the message that the loop appends. *)
Definition message_of_chunk (full_response : Chunk) : AIMessage :=
  {| ai_content := chunk_content full_response;
     tool_calls := chunk_tool_calls full_response |}.

(** The [for tool_call in full_response.tool_calls] of [stream]. *)
Fixpoint for_tool_calls_stream (self : ShoeDiscoveryAgent)
    (calls : list ToolCall) (messages : list Message)
    : list str * list Message * option Exception :=
  match calls with
  | [] => ([], messages, None)
  | tool_call :: rest =>
      match _execute_tool self (call_name tool_call) (call_args tool_call) with
      | Raise e => ([searching_notice], messages, Some e)
      | Ok tool_result =>
          let '(fragments, messages', e) :=
            for_tool_calls_stream self rest
              (messages ++ [ToolMessage tool_result (call_id tool_call)]) in
          (searching_notice :: fragments, messages', e)
      end
  end.

Fixpoint stream_loop (self : ShoeDiscoveryAgent) (fuel : nat)
    (messages : list Message) : Stream :=
  match fuel with
  | O => {| yielded := []; ended := Unfinished; stream_working := messages;
            stream_invocations := [] |}
  | S fuel' =>
      let '(chunks, failure) := astream messages in
      let '(fragments, full_response) := consume chunks None in
      match failure with
      | Some e =>
          {| yielded := fragments; ended := Failed e; stream_working := messages;
             stream_invocations := [messages] |}
      | None =>
          match full_response with
          | None =>
              {| yielded := fragments; ended := Finished; stream_working := messages;
                 stream_invocations := [messages] |}
          | Some full_response =>
              if negb (truthy_list (chunk_tool_calls full_response)) then
                {| yielded := fragments; ended := Finished; stream_working := messages;
                   stream_invocations := [messages] |}
              else
                match for_tool_calls_stream self (chunk_tool_calls full_response)
                        (messages ++ [AssistantMessage (message_of_chunk full_response)])
                with
                | (notices, messages', Some e) =>
                    {| yielded := fragments ++ notices; ended := Failed e;
                       stream_working := messages';
                       stream_invocations := [messages] |}
                | (notices, messages', None) =>
                    streamed (fragments ++ notices) messages
                      (stream_loop self fuel' messages')
                end
          end
      end
  end.

Definition stream (self : ShoeDiscoveryAgent) (fuel : nat)
    (user_input : str) (chat_history : option (list Message)) : Stream :=
  stream_loop self fuel (seed user_input chat_history).

End stream.

(* ===================================================================== *)
(** ** main.py: handle_message *)
(* ===================================================================== *)

(** The calls that [handle_message] makes on the chat UI. *)
Inductive UIEvent :=
| MessageSend (text : str)        (* [cl.Message(content=text).send()] *)
| StreamToken (token : str)       (* [msg.stream_token(token)] *)
| SetContent (text : str)         (* [msg.content = text] *)
| Update.                         (* [msg.update()] *)

Section handle_message.
(** [agent.stream(user_input, chat_history)] consumed: the fragments it
    yields and the exception that ends it, if one does. *)
Variable agent_stream : str -> list Message -> list str * option Exception.

(** One incoming message: the UI calls made and the chat history that the
    session holds afterwards. *)
Definition handle_message (chat_history : list Message) (text : str)
    : list UIEvent * list Message :=
  let user_input := strip text in
  if negb (truthy user_input) then
    ([MessageSend (py "Please ask about a running shoe!")], chat_history)
  else
    let '(chunks, failure) := agent_stream user_input chat_history in
    let full_response := concat chunks in
    let shown := MessageSend [] :: List.map StreamToken chunks in
    match failure with
    | Some e =>
        (shown
         ++ [SetContent (py "Error: " ++ exc_str e ++ [10; 10]
                         ++ py "Please try again or rephrase your question.");
             Update],
         chat_history)
    | None =>
        let chat_history :=
          chat_history
          ++ [HumanMessage user_input;
              AssistantMessage {| ai_content := full_response; tool_calls := [] |}] in
        let chat_history :=
          if (20 <? length chat_history)%nat
          then drop (length chat_history - 20) chat_history
          else chat_history in
        (shown ++ [Update], chat_history)
    end.


End handle_message.

(** What [handle_message]'s [async for] gets from [agent.stream] on the
    session's agent: the fragments yielded, and the exception of a stream
    that failed. *)
Definition agent_stream_of {Chunk : Type} `{AIMessageChunk Chunk}
    (astream : list Message -> list Chunk * option Exception)
    (self : ShoeDiscoveryAgent) (fuel : nat)
    (user_input : str) (chat_history : list Message) : list str * option Exception :=
  let s := stream astream self fuel user_input (Some chat_history) in
  (yielded s, match ended s with Failed e => Some e | _ => None end).

(* ===================================================================== *)
(** ** Vocabulary of the statements *)
(* ===================================================================== *)

(** A string that neither starts nor ends with a whitespace character. *)
Definition no_leading_space (s : str) : Prop :=
  match s with c :: _ => is_space c = false | [] => True end.

Definition no_trailing_space (s : str) : Prop := no_leading_space (rev s).

(** A shoe name as a caller means it: not empty, no comma inside, no
    whitespace around. *)
Definition valid_name (n : str) : Prop :=
  n <> [] /\ (comma ∉ n) /\ no_leading_space n /\ no_trailing_space n.

(** The request that a tool built by [get_shoe_tools] sends the provider
    for one shoe. *)
Definition default_search_params (shoe_name : str) : SearchParams :=
  {| sp_query := shoe_name ++ py " running shoe specs heel drop stack height weight";
     sp_search_depth := py "advanced";
     sp_max_results := 5;
     sp_include_answer := py "advanced";
     sp_include_domains := Some SHOE_DOMAINS |}.

(** The test of the comprehension, [r.get("score", 0) > 0.5]. *)
Definition score_passes (r : RawResult) : bool :=
  PrimFloat.ltb 0.5%float (default 0%float (raw_score r)).

(** The [ShoeSource] that the comprehension builds from one raw result. *)
Definition source_of_raw (r : RawResult) : ShoeSource :=
  {| title := default [] (raw_title r);
     url := default [] (raw_url r);
     content := take 500 (default [] (raw_content r));
     score := default 0%float (raw_score r) |}.

(** Insertion into a list that is sorted by score, highest first. *)
Fixpoint insert_by_score (r : RawResult) (sorted : list RawResult) : list RawResult :=
  match sorted with
  | [] => [r]
  | r' :: rest =>
      if PrimFloat.leb (default 0%float (raw_score r')) (default 0%float (raw_score r))
      then r :: sorted
      else r' :: insert_by_score r rest
  end.

Definition sort_by_score (l : list RawResult) : list RawResult :=
  foldr insert_by_score [] l.

(** The sources as the specification words them: of the results that pass,
    the three of highest score, highest first. *)
Definition top3_by_score (response : Response) : list ShoeSource :=
  List.map source_of_raw
    (take 3 (sort_by_score (List.filter score_passes (default [] (resp_results response))))).

(** The names an input asks for: its comma-separated pieces, trimmed, the
    empty ones dropped. *)
Definition requested_names (shoe_names : str) : list str :=
  List.filter truthy (List.map strip (split comma shoe_names)).

(** The entry of the result for one name. *)
Definition entry_for (self : AsyncShoeSearchTool.t) (n : str) : ShoeSpecs :=
  match AsyncShoeSearchTool._search_single self n with
  | Raise e => ShoeSpecs_of n (py "Search failed: " ++ exc_str e) []
  | Ok specs => specs
  end.

(** A tool call whose execution returns. *)
Definition returns (self : ShoeDiscoveryAgent) (c : ToolCall) : Prop :=
  is_ok (_execute_tool self (call_name c) (call_args c)) = true.

(** [m] is the Tool Result of the call [c]. *)
Definition result_of (self : ShoeDiscoveryAgent) (m : Message) (c : ToolCall) : Prop :=
  exists tool_result,
    _execute_tool self (call_name c) (call_args c) = Ok tool_result
    /\ m = ToolMessage tool_result (call_id c).

(** The call ids that the Tool Results of a message list refer to. *)
Fixpoint result_ids (messages : list Message) : list str :=
  match messages with
  | ToolMessage _ i :: rest => i :: result_ids rest
  | _ :: rest => result_ids rest
  | [] => []
  end.

(** The Tool Results of a message list. *)
Definition tool_results (messages : list Message) : list Message :=
  List.filter (fun m => match m with ToolMessage _ _ => true | _ => false end) messages.

(** The value that [_execute_tool] passes to a tool: from a dictionary the
    entry of the key [first], else that of the key [second], else the empty
    string; of any other input its [str]. *)
Definition preferring (first second : str) (tool_input : ToolInput) : str :=
  match tool_input with
  | Dict d =>
      match d !! first, d !! second with
      | Some v, _ => v
      | None, Some v => v
      | None, None => []
      end
  | NotDict repr => repr
  end.

(** The message lists that the loop reaches from [start]: [start] itself,
    and a reached list extended by the model's response to it, when that
    asks for tools, and one Tool Result per call of the response, in the
    order of the calls. *)
Inductive conversation (self : ShoeDiscoveryAgent) (start : list Message)
    : list Message -> Prop :=
| conversation_start : conversation self start start
| conversation_round messages response appended :
    conversation self start messages ->
    llm_with_tools self messages = Ok response ->
    tool_calls response <> [] ->
    Forall2 (result_of self) appended (tool_calls response) ->
    conversation self start (messages ++ AssistantMessage response :: appended).


(** A key that the environment sets to a non-empty value. *)
Definition configured (environ : gmap str str) (key : str) : Prop :=
  exists value, environ !! key = Some value /\ value <> [].

(** The streamed model and the invoked one answer [messages] alike: the
    chunks of the first sum up to the response of the second, or both fail
    with the same exception. *)
Definition stream_agrees {Chunk : Type} `{AIMessageChunk Chunk}
    (astream : list Message -> list Chunk * option Exception)
    (self : ShoeDiscoveryAgent) (messages : list Message) : Prop :=
  match llm_with_tools self messages with
  | Ok response =>
      exists chunks full_response,
        astream messages = (chunks, None)
        /\ (consume chunks None).2 = Some full_response
        /\ message_of_chunk full_response = response
  | Raise e => exists chunks, astream messages = (chunks, Some e)
  end.

(** How a run and a consumed stream end alike. *)
Definition same_end (o : Outcome) (s : StreamEnd) : Prop :=
  match o, s with
  | Returned _, Finished => True
  | Raised e, Failed e' => e = e'
  | StillRunning, Unfinished => True
  | _, _ => False
  end.

(* ===================================================================== *)
(** ** Providers, models and inputs of the examples *)
(* ===================================================================== *)

(** A raw result with all four keys present. *)
Definition raw (t u c : str) (s : float) : RawResult :=
  {| raw_title := Some t; raw_url := Some u; raw_content := Some c;
     raw_score := Some s |}.

(** A response with an answer and raw results of the given scores. *)
Definition response_with_scores (scores : list float) : Response :=
  {| resp_answer := Some (py "specs");
     resp_results := Some (List.map (raw (py "t") (py "u") (py "c")) scores) |}.

Definition long_text : str := repeat 120 700.

Definition long_response : Response :=
  {| resp_answer := None;
     resp_results := Some [raw (py "Review") (py "https://runrepeat.com/p") long_text 0.9] |}.

(** A provider that answers every query with one passing result. *)
Definition answering_client (p : SearchParams) : Result Response :=
  Ok {| resp_answer := Some (py "Specs of: " ++ sp_query p);
        resp_results := Some [raw (py "Review") (py "https://runrepeat.com/r") (sp_query p) 0.9] |}.

Definition seven_names : list str :=
  [ py "Nike Pegasus 41"; py "ASICS Gel-Nimbus 26"; py "Brooks Ghost 16";
    py "Hoka Clifton 9"; py "New Balance 1080v14"; py "Saucony Triumph 22";
    py "Adidas Adizero Boston 12" ].

Definition pegasus_input : str :=
  py "Nike Pegasus 41, , Brooks Ghost 16, Brooks Ghost 16".

Definition pegasus_result : ShoeSearchResult :=
  {| query := pegasus_input;
     shoes := List.map (entry_for (AsyncShoeSearchTool.new answering_client))
                (AsyncShoeSearchTool.parse_names
                   (AsyncShoeSearchTool.new answering_client) pegasus_input);
     raw_answer := None |}.

(** A provider whose lookup of one shoe fails. *)
Definition flaky_client (p : SearchParams) : Result Response :=
  if bool_decide (sp_query p = AsyncShoeSearchTool._build_query (py "Brooks Ghost 16"))
  then Raise (TransportError (py "connection reset"))
  else answering_client p.

Definition three_names_input : str :=
  py "Nike Pegasus 41, Brooks Ghost 16, Hoka Clifton 9".

Definition dump_specs0 (s : ShoeSpecs) : str := py "{name: " ++ name s ++ py "}".

Definition dump_result0 (r : ShoeSearchResult) : str :=
  py "{query: " ++ query r ++ py ", shoes: " ++ join (py "; ") (List.map name (shoes r))
  ++ py "}".

(** A provider that is down. *)
Definition failing_client (p : SearchParams) : Result Response :=
  Raise (TransportError (py "connection reset")).

Definition call (name id key value : str) : ToolCall :=
  {| call_name := name; call_args := Dict {[ key := value ]}; call_id := id |}.

(** A model that asks for the given tool calls until the list holds a Tool
    Result, and answers then. *)
Definition scripted_llm (calls : list ToolCall) (messages : list Message)
    : Result AIMessage :=
  if truthy_list (tool_results messages)
  then Ok {| ai_content := py "Here are the specs."; tool_calls := [] |}
  else Ok {| ai_content := []; tool_calls := calls |}.

Definition agent_with (client async_client : SearchParams -> Result Response)
    (calls : list ToolCall) : ShoeDiscoveryAgent :=
  {| tools := get_shoe_tools client async_client dump_specs0 dump_result0;
     llm_with_tools := scripted_llm calls |}.

Definition question : str := py "Compare the Pegasus 41 and the Ghost 16".

Definition two_calls : list ToolCall :=
  [ call (py "multi_shoe_search") (py "call_1") (py "shoe_names")
      (py "Nike Pegasus 41, Brooks Ghost 16");
    call (py "shoe_specs_search") (py "call_2") (py "shoe_name") (py "Hoka Clifton 9") ].

Definition unknown_call : ToolCall :=
  call (py "shoe_price_search") (py "call_1") (py "shoe_name") (py "Nike Pegasus 41").

Definition blank_call : ToolCall :=
  call (py "multi_shoe_search") (py "call_1") (py "shoe_names") (py " , ").


(** A model that answers at once. *)
Definition direct_answer : AIMessage :=
  {| ai_content := py "The Pegasus 41 has a 10 mm drop."; tool_calls := [] |}.

Definition direct_agent : ShoeDiscoveryAgent :=
  {| tools := get_shoe_tools answering_client answering_client dump_specs0 dump_result0;
     llm_with_tools := fun _ => Ok direct_answer |}.


(** A call of the single-shoe search. *)
Definition one_shoe_call : ToolCall :=
  call (py "shoe_specs_search") (py "call_1") (py "shoe_name") (py "Hoka Clifton 9").

(** The list of the second model invocation of the run that makes
    [two_calls]. *)
Definition second_invocation : list Message :=
  match invocations (run (agent_with answering_client answering_client two_calls)
                       2 question None) with
  | [_; messages] => messages
  | _ => []
  end.

(** Chunks that carry a piece of text and tool calls, summed piecewise. *)
Definition TextChunk : Type := str * list ToolCall.

#[export] Instance TextChunk_ops : AIMessageChunk TextChunk :=
  {| chunk_content := fst;
     chunk_add := fun a b => (a.1 ++ b.1, a.2 ++ b.2);
     chunk_tool_calls := snd |}.

(** A streamed model that delivers the response of an invoked one in two
    chunks: the first four characters, then the rest and the tool calls. *)
Definition astream_of (llm : list Message -> Result AIMessage)
    (messages : list Message) : list TextChunk * option Exception :=
  match llm messages with
  | Ok r => ([(take 4 (ai_content r), []); (drop 4 (ai_content r), tool_calls r)], None)
  | Raise e => ([], Some e)
  end.

(* ===================================================================== *)
(** ** Facts about [split], [strip] and [join] *)
(* ===================================================================== *)

Lemma is_space_not_comma c : is_space c = true -> c <> comma.
Proof. intros H ->. discriminate H. Qed.


Lemma split_no_sep sep p : sep ∉ p -> split sep p = [p].
Proof.
  induction p as [|c p IH]; intros Hp; simpl; [reflexivity|].
  apply not_elem_of_cons in Hp as [Hc Hp].
  destruct (N.eqb_spec c sep) as [->|_]; [congruence|].
  rewrite (IH Hp). reflexivity.
Qed.

Lemma split_app_sep sep p s :
  sep ∉ p -> split sep (p ++ sep :: s) = p :: split sep s.
Proof.
  induction p as [|c p IH]; intros Hp; simpl.
  - rewrite N.eqb_refl. reflexivity.
  - apply not_elem_of_cons in Hp as [Hc Hp].
    destruct (N.eqb_spec c sep) as [->|_]; [congruence|].
    rewrite (IH Hp). reflexivity.
Qed.

Lemma split_pieces_no_sep sep s : Forall (fun p => sep ∉ p) (split sep s).
Proof.
  induction s as [|c s IH]; simpl.
  - constructor; [apply not_elem_of_nil | constructor].
  - destruct (N.eqb_spec c sep) as [->|Hc].
    + constructor; [apply not_elem_of_nil | exact IH].
    + destruct (split sep s) as [|p ps].
      * constructor; [|constructor].
        intros Hin. apply list_elem_of_singleton in Hin. congruence.
      * inversion IH as [|? ? Hp Hps]; subst.
        constructor; [|exact Hps].
        apply not_elem_of_cons. split; [congruence | exact Hp].
Qed.

(** [lstrip] drops a prefix of whitespace and nothing else. *)
Lemma lstrip_decompose s :
  exists w, s = w ++ lstrip s /\ Forall (fun c => is_space c = true) w.
Proof.
  induction s as [|c s (w & Hs & Hw)]; simpl.
  - exists []. split; [reflexivity | constructor].
  - destruct (is_space c) eqn:Hc.
    + exists (c :: w). split; [simpl; congruence | constructor; assumption].
    + exists []. split; [reflexivity | constructor].
Qed.

Lemma lstrip_no_leading_space s : no_leading_space (lstrip s).
Proof.
  induction s as [|c s IH]; simpl; [exact I|].
  destruct (is_space c) eqn:Hc; [exact IH | exact Hc].
Qed.

Lemma lstrip_id s : no_leading_space s -> lstrip s = s.
Proof. destruct s as [|c s]; simpl; [reflexivity|]. intros ->. reflexivity. Qed.

Lemma lstrip_spaces_app w s :
  Forall (fun c => is_space c = true) w -> lstrip (w ++ s) = lstrip s.
Proof.
  induction 1 as [|c w Hc _ IH]; simpl; [reflexivity|].
  rewrite Hc. exact IH.
Qed.

(** [rstrip] drops a suffix of whitespace and nothing else. *)
Lemma rstrip_decompose s :
  exists w, s = rstrip s ++ w /\ Forall (fun c => is_space c = true) w.
Proof.
  unfold rstrip. destruct (lstrip_decompose (rev s)) as (w & Hs & Hw).
  exists (rev w). split.
  - rewrite <- rev_app_distr, <- Hs, rev_involutive. reflexivity.
  - apply Forall_rev. exact Hw.
Qed.

Lemma rstrip_no_trailing_space s : no_trailing_space (rstrip s).
Proof.
  unfold no_trailing_space, rstrip. rewrite rev_involutive.
  apply lstrip_no_leading_space.
Qed.

Lemma rstrip_id s : no_trailing_space s -> rstrip s = s.
Proof.
  unfold no_trailing_space, rstrip. intros H.
  rewrite (lstrip_id _ H). apply rev_involutive.
Qed.

Lemma rstrip_keeps_no_leading_space s :
  no_leading_space s -> no_leading_space (rstrip s).
Proof.
  intros H. destruct (rstrip_decompose s) as (w & Hs & _).
  destruct (rstrip s) as [|c t]; [exact I|].
  rewrite Hs in H. exact H.
Qed.

Lemma strip_no_leading_space s : no_leading_space (strip s).
Proof. apply rstrip_keeps_no_leading_space, lstrip_no_leading_space. Qed.

Lemma strip_no_trailing_space s : no_trailing_space (strip s).
Proof. apply rstrip_no_trailing_space. Qed.

Lemma strip_id s : no_leading_space s -> no_trailing_space s -> strip s = s.
Proof. intros Hl Hr. unfold strip. rewrite (lstrip_id _ Hl). apply rstrip_id, Hr. Qed.

(** What [strip] keeps is a contiguous part of the string. *)
Lemma strip_decompose s :
  exists w1 w2, s = w1 ++ strip s ++ w2
    /\ Forall (fun c => is_space c = true) w1
    /\ Forall (fun c => is_space c = true) w2.
Proof.
  destruct (lstrip_decompose s) as (w1 & Hs1 & Hw1).
  destruct (rstrip_decompose (lstrip s)) as (w2 & Hs2 & Hw2).
  exists w1, w2. unfold strip. rewrite <- Hs2. auto.
Qed.

Lemma strip_no_sep sep s : sep ∉ s -> sep ∉ strip s.
Proof.
  intros Hs Hin. apply Hs.
  destruct (strip_decompose s) as (w1 & w2 & -> & _).
  rewrite !elem_of_app. auto.
Qed.

Lemma strip_spaces_app w s :
  Forall (fun c => is_space c = true) w -> strip (w ++ s) = strip s.
Proof. intros Hw. unfold strip. rewrite (lstrip_spaces_app _ _ Hw). reflexivity. Qed.

Lemma truthy_spec s : truthy s = true <-> s <> [].
Proof. destruct s; simpl; split; congruence. Qed.

Lemma spaces_no_comma w :
  Forall (fun c => is_space c = true) w -> comma ∉ w.
Proof.
  intros Hw Hin. rewrite Forall_forall in Hw.
  exact (is_space_not_comma _ (Hw _ Hin) eq_refl).
Qed.

Lemma strip_spaces w : Forall (fun c => is_space c = true) w -> strip w = [].
Proof.
  intros Hw. rewrite <- (app_nil_r w). rewrite (strip_spaces_app _ _ Hw). reflexivity.
Qed.

Lemma join_cons2 sep p q ps :
  join sep (p :: q :: ps) = p ++ sep ++ join sep (q :: ps).
Proof. reflexivity. Qed.

(** Joining valid names with a comma, followed by any whitespace, and
    reading the string back gives the names. *)
Lemma names_of_join ws w0 ns :
  Forall (fun c => is_space c = true) ws ->
  Forall (fun c => is_space c = true) w0 ->
  Forall valid_name ns ->
  List.filter truthy (List.map strip (split comma (w0 ++ join (comma :: ws) ns))) = ns.
Proof.
  intros Hws Hw0 Hns. revert w0 Hw0.
  induction Hns as [|n ns (Hne & Hc & Hl & Hr) Hns IH]; intros w0 Hw0.
  - simpl. rewrite app_nil_r, split_no_sep by (apply spaces_no_comma, Hw0).
    simpl. rewrite strip_spaces by exact Hw0. reflexivity.
  - destruct ns as [|n2 ns].
    + simpl join. rewrite split_no_sep.
      2:{ rewrite elem_of_app. intros [H|H]; [exact (spaces_no_comma _ Hw0 H) | exact (Hc H)]. }
      simpl. rewrite strip_spaces_app, strip_id by assumption.
      apply truthy_spec in Hne. rewrite Hne. reflexivity.
    + rewrite join_cons2.
      replace (w0 ++ n ++ (comma :: ws) ++ join (comma :: ws) (n2 :: ns))
        with ((w0 ++ n) ++ comma :: (ws ++ join (comma :: ws) (n2 :: ns)))
        by (rewrite <- !app_assoc; reflexivity).
      rewrite split_app_sep.
      2:{ rewrite elem_of_app. intros [H|H]; [exact (spaces_no_comma _ Hw0 H) | exact (Hc H)]. }
      cbn [List.map List.filter].
      rewrite strip_spaces_app, strip_id by assumption.
      apply truthy_spec in Hne. rewrite Hne.
      f_equal. apply IH. exact Hws.
Qed.

(** Every name that the input's pieces leave after trimming and dropping
    the empty ones is a valid name. *)
Lemma requested_valid s :
  Forall valid_name (List.filter truthy (List.map strip (split comma s))).
Proof.
  apply Forall_forall. intros n Hn.
  apply list_elem_of_In, filter_In in Hn as [Hin Ht].
  apply in_map_iff in Hin as (p & <- & Hp).
  pose proof (split_pieces_no_sep comma s) as Hall.
  rewrite Forall_forall in Hall.
  repeat split.
  - apply truthy_spec, Ht.
  - apply strip_no_sep, Hall, list_elem_of_In, Hp.
  - apply strip_no_leading_space.
  - apply strip_no_trailing_space.
Qed.

(* ===================================================================== *)
(** ** Response parsing *)
(* ===================================================================== *)

Lemma parse_response_sources shoe_name response :
  sources (ShoeSearchTool._parse_response shoe_name response)
  = List.map source_of_raw
      (take 3 (List.filter score_passes (default [] (resp_results response)))).
Proof. unfold ShoeSearchTool._parse_response. simpl. apply firstn_map. Qed.

Lemma parse_response_name shoe_name response :
  name (AsyncShoeSearchTool._parse_response shoe_name response) = shoe_name.
Proof. reflexivity. Qed.

(** C10: the single-shoe tool and the multi-shoe tool parse every provider
    response of every shoe name into the same [ShoeSpecs] record: the same
    filter on the score, the same truncation, the same summary. So a
    single-shoe lookup and one lookup of a multi-shoe search, which send
    the provider the same request, turn its response into the same record. *)
Theorem parse_response_agree (shoe_name : str) (response : Response) :
  ShoeSearchTool._parse_response shoe_name response
  = AsyncShoeSearchTool._parse_response shoe_name response
  /\ forall (client : SearchParams -> Result Response) (dump : ShoeSpecs -> str),
       client (default_search_params shoe_name) = Ok response ->
       ShoeSearchTool._run dump (ShoeSearchTool.new client) shoe_name
       = Ok (dump (AsyncShoeSearchTool._parse_response shoe_name response))
       /\ AsyncShoeSearchTool._search_single (AsyncShoeSearchTool.new client) shoe_name
          = Ok (ShoeSearchTool._parse_response shoe_name response).
Proof.
  split; [reflexivity|]. intros client dump Hresponse. split.
  - unfold ShoeSearchTool._run. cbv zeta.
    change (client (default_search_params shoe_name))
      with (ShoeSearchTool.client (ShoeSearchTool.new client)
              (default_search_params shoe_name)) in Hresponse.
    unfold default_search_params in Hresponse.
    cbn [ShoeSearchTool.new ShoeSearchTool.search_depth ShoeSearchTool.use_domain_filter].
    cbn [ShoeSearchTool.new ShoeSearchTool.client] in Hresponse |- *.
    unfold ShoeSearchTool._build_query. rewrite Hresponse. reflexivity.
  - unfold AsyncShoeSearchTool._search_single. cbv zeta.
    unfold default_search_params in Hresponse.
    cbn [AsyncShoeSearchTool.new AsyncShoeSearchTool.search_depth
         AsyncShoeSearchTool.use_domain_filter AsyncShoeSearchTool.async_client].
    unfold AsyncShoeSearchTool._build_query. rewrite Hresponse. reflexivity.
Qed.



(** The 700-character text of [long_response] is stored as its first 500
    characters. *)
Example content_700_example :
  List.map content (sources (ShoeSearchTool._parse_response (py "Nike Pegasus 41") long_response))
  = [repeat 120 500].
Proof. vm_compute. reflexivity. Qed.

(** C3, as the code has it: the adapter keeps the first three, in the
    provider's order, of the raw results whose score is strictly greater
    than 0.5 (all of them when there are at most three), so every kept
    source has a score above 0.5 and at most three are kept; raw scores
    0.9, 0.4, 0.6, 0.51 yield the 0.9, 0.6 and 0.51 entries. *)
Theorem sources_are_first_three_passing (shoe_name : str) (response : Response) :
  let passing := List.filter score_passes (default [] (resp_results response)) in
  let kept := sources (ShoeSearchTool._parse_response shoe_name response) in
  kept = List.map source_of_raw (take 3 passing)
  /\ (length kept <= 3)%nat
  /\ Forall (fun s => PrimFloat.ltb 0.5%float (score s) = true) kept
  /\ ((length passing <= 3)%nat -> kept = List.map source_of_raw passing)
  /\ List.map score
       (sources (ShoeSearchTool._parse_response shoe_name
                   (response_with_scores [0.9; 0.4; 0.6; 0.51]%float)))
     = [0.9; 0.6; 0.51]%float.
Proof.
  cbv zeta. rewrite parse_response_sources.
  split; [reflexivity|]. split; [|split; [|split]].
  - rewrite length_map, length_take. lia.
  - apply Forall_forall. intros s Hs.
    apply list_elem_of_In, in_map_iff in Hs as (r & <- & Hr).
    apply list_elem_of_In, subseteq_take, list_elem_of_In, filter_In in Hr as [_ Hpass].
    exact Hpass.
  - intros Hle. rewrite take_ge by exact Hle. reflexivity.
  - vm_compute. reflexivity.
Qed.

(** C3, as the specification states it, fails: of four passing results
    with scores 0.6, 0.9, 0.7, 0.8 the adapter keeps 0.6, 0.9, 0.7, where
    the three of highest score, highest first, are 0.9, 0.8, 0.7. *)
Lemma sources_not_top_by_score :
  List.map score
    (sources (ShoeSearchTool._parse_response (py "Nike Pegasus 41")
                (response_with_scores [0.6; 0.9; 0.7; 0.8]%float)))
  = [0.6; 0.9; 0.7]%float
  /\ List.map score (top3_by_score (response_with_scores [0.6; 0.9; 0.7; 0.8]%float))
     = [0.9; 0.8; 0.7]%float
  /\ sources (ShoeSearchTool._parse_response (py "Nike Pegasus 41")
                (response_with_scores [0.6; 0.9; 0.7; 0.8]%float))
     <> top3_by_score (response_with_scores [0.6; 0.9; 0.7; 0.8]%float).
Proof.
  split; [vm_compute; reflexivity|]. split; [vm_compute; reflexivity|].
  intros H.
  apply (f_equal (List.map (fun s => PrimFloat.ltb 0.65%float (score s)))) in H.
  vm_compute in H. discriminate H.
Qed.

(* ===================================================================== *)
(** ** The multi-shoe lookup *)
(* ===================================================================== *)

Lemma parse_names_requested self shoe_names :
  AsyncShoeSearchTool.parse_names self shoe_names
  = take (AsyncShoeSearchTool.max_shoes self) (requested_names shoe_names).
Proof. reflexivity. Qed.

Lemma shoes_of_zip self names :
  List.map AsyncShoeSearchTool.shoe_of
    (zip names (List.map (AsyncShoeSearchTool._search_single self) names))
  = List.map (entry_for self) names.
Proof. induction names as [|n names IH]; simpl; [reflexivity|]. f_equal. exact IH. Qed.

Lemma search_result_ok self shoe_names :
  AsyncShoeSearchTool.parse_names self shoe_names <> [] ->
  AsyncShoeSearchTool.search_result self shoe_names
  = Ok {| query := shoe_names;
          shoes := List.map (entry_for self)
                     (AsyncShoeSearchTool.parse_names self shoe_names);
          raw_answer := None |}.
Proof.
  intros Hne. unfold AsyncShoeSearchTool.search_result. cbv zeta.
  destruct (AsyncShoeSearchTool.parse_names self shoe_names) as [|n names] eqn:E;
    [congruence|].
  cbn [truthy_list]. rewrite shoes_of_zip. reflexivity.
Qed.

Lemma search_result_no_names self shoe_names :
  AsyncShoeSearchTool.parse_names self shoe_names = [] ->
  AsyncShoeSearchTool.search_result self shoe_names
  = Raise (ToolException (py "No valid shoe names provided")).
Proof. intros E. unfold AsyncShoeSearchTool.search_result. rewrite E. reflexivity. Qed.

Lemma search_result_inv self shoe_names r :
  AsyncShoeSearchTool.search_result self shoe_names = Ok r ->
  r = {| query := shoe_names;
         shoes := List.map (entry_for self)
                    (AsyncShoeSearchTool.parse_names self shoe_names);
         raw_answer := None |}.
Proof.
  intros H.
  destruct (AsyncShoeSearchTool.parse_names self shoe_names) as [|n names] eqn:E.
  - rewrite search_result_no_names in H by exact E. discriminate H.
  - rewrite search_result_ok in H by (rewrite E; discriminate).
    rewrite E in H. congruence.
Qed.

Lemma entry_for_name self n : name (entry_for self n) = n.
Proof.
  unfold entry_for, AsyncShoeSearchTool._search_single. cbv zeta.
  destruct (AsyncShoeSearchTool.async_client self _); reflexivity.
Qed.

Lemma entries_names self names : List.map name (List.map (entry_for self) names) = names.
Proof.
  induction names as [|n names IH]; simpl; [reflexivity|].
  rewrite entry_for_name, IH. reflexivity.
Qed.

(** C7: the adapter reads the names out of the input string itself. What it
    reads is the comma-separated pieces, trimmed, without the empty ones,
    cut after the first five: each name read is not empty, has no comma and
    no whitespace around it; the shoes of a result carry exactly these
    names, in order; and valid names joined by commas (with or without
    whitespace after each comma) are read back as the first five of them,
    so seven valid names give the first five, in input order. *)
Theorem parse_names_first_five
    (client : SearchParams -> Result Response) (shoe_names : str) :
  let self := AsyncShoeSearchTool.new client in
  let names := AsyncShoeSearchTool.parse_names self shoe_names in
  names = take 5 (List.filter truthy (List.map strip (split comma shoe_names)))
  /\ Forall valid_name names
  /\ (length names <= 5)%nat
  /\ (forall r, AsyncShoeSearchTool.search_result self shoe_names = Ok r ->
        List.map name (shoes r) = names)
  /\ (forall ws ns,
        Forall (fun c => is_space c = true) ws ->
        Forall valid_name ns ->
        shoe_names = join (comma :: ws) ns ->
        names = take 5 ns
        /\ (length ns = 7%nat -> length names = 5%nat)).
Proof.
  cbv zeta. split; [reflexivity|]. split; [|split; [|split]].
  - rewrite parse_names_requested. apply Forall_take, requested_valid.
  - rewrite parse_names_requested, length_take. apply Nat.le_min_l.
  - intros r Hr. apply search_result_inv in Hr. subst r. simpl.
    apply entries_names.
  - intros ws ns Hws Hns ->.
    rewrite parse_names_requested. unfold requested_names.
    rewrite <- (app_nil_l (join (comma :: ws) ns)).
    rewrite names_of_join by (assumption || constructor).
    split; [reflexivity|]. intros Hlen. rewrite length_take, Hlen. reflexivity.
Qed.

(** Seven valid names, joined as [quick_search] joins them, give the first
    five. *)
Example seven_names_example :
  exists r,
    AsyncShoeSearchTool.search_result (AsyncShoeSearchTool.new answering_client)
      (join (py ", ") seven_names) = Ok r
    /\ List.map name (shoes r) = take 5 seven_names.
Proof. eexists. split; vm_compute; reflexivity. Qed.

(** C4, as the code has it: the shoes of a multi-shoe lookup's result are
    one per non-empty (after trimming) name of the input, in order and with
    a name that occurs twice kept twice, cut after the first five. The input
    with one blank piece and one repeated name yields 3 shoes. *)
Theorem shoes_one_per_requested_name
    (client : SearchParams -> Result Response) (shoe_names : str)
    (r : ShoeSearchResult) :
  AsyncShoeSearchTool.search_result (AsyncShoeSearchTool.new client) shoe_names = Ok r ->
  List.map name (shoes r) = take 5 (requested_names shoe_names)
  /\ length (shoes r) = Nat.min 5 (length (requested_names shoe_names))
  /\ (shoe_names = pegasus_input ->
      List.map name (shoes r)
      = [py "Nike Pegasus 41"; py "Brooks Ghost 16"; py "Brooks Ghost 16"]).
Proof.
  intros Hr. apply search_result_inv in Hr. subst r. cbn [shoes].
  rewrite entries_names, parse_names_requested.
  change (AsyncShoeSearchTool.max_shoes (AsyncShoeSearchTool.new client)) with 5%nat.
  split; [reflexivity|]. split.
  - rewrite length_map, length_take. reflexivity.
  - intros ->. vm_compute. reflexivity.
Qed.

Lemma shoes_one_per_requested_name_witness :
  List.map name (shoes pegasus_result) = take 5 (requested_names pegasus_input)
  /\ length (shoes pegasus_result) = Nat.min 5 (length (requested_names pegasus_input))
  /\ (pegasus_input = pegasus_input ->
      List.map name (shoes pegasus_result)
      = [py "Nike Pegasus 41"; py "Brooks Ghost 16"; py "Brooks Ghost 16"]).
Proof.
  apply (shoes_one_per_requested_name answering_client pegasus_input pegasus_result).
  vm_compute. reflexivity.
Defined.

(** C4, as the specification states it, fails: the input with a blank
    piece and a repeated name asks for 2 distinct non-empty names, and the
    result has 3 shoes. *)
Lemma shoes_count_keeps_duplicates :
  AsyncShoeSearchTool.search_result (AsyncShoeSearchTool.new answering_client)
    pegasus_input = Ok pegasus_result
  /\ length (shoes pegasus_result) = 3%nat
  /\ length (remove_dups (requested_names pegasus_input)) = 2%nat
  /\ length (shoes pegasus_result)
     <> length (remove_dups (requested_names pegasus_input)).
Proof.
  split; [vm_compute; reflexivity|]. split; [vm_compute; reflexivity|].
  split; [vm_compute; reflexivity|]. vm_compute. discriminate.
Qed.

Lemma lookup_map {A B} (f : A -> B) (l : list A) (i : nat) (x : A) :
  l !! i = Some x -> List.map f l !! i = Some (f x).
Proof.
  revert i. induction l as [|a l IH]; intros [|i] H; simpl in *; try discriminate.
  - congruence.
  - apply IH, H.
Qed.

(** C5: a multi-shoe lookup over n >= 1 parsed names returns, whatever the
    per-name lookups do, a result with n entries in the order of the names:
    the entry of a name whose lookup raised has that name and the summary
    "Search failed: " followed by the error, and the entry of a name whose
    lookup returned is what it returned. The call itself returns (the
    serialized result) and does not raise. *)
Theorem lookup_failures_are_isolated
    (self : AsyncShoeSearchTool.t) (shoe_names : str) :
  AsyncShoeSearchTool.parse_names self shoe_names <> [] ->
  exists r,
    AsyncShoeSearchTool.search_result self shoe_names = Ok r
    /\ (forall model_dump_json,
          AsyncShoeSearchTool._arun model_dump_json self shoe_names
          = Ok (model_dump_json r))
    /\ query r = shoe_names
    /\ length (shoes r) = length (AsyncShoeSearchTool.parse_names self shoe_names)
    /\ List.map name (shoes r) = AsyncShoeSearchTool.parse_names self shoe_names
    /\ forall i n,
         AsyncShoeSearchTool.parse_names self shoe_names !! i = Some n ->
         match AsyncShoeSearchTool._search_single self n with
         | Raise e =>
             shoes r !! i
             = Some {| name := n; heel_to_toe_drop := None; stack_height := None;
                       cushioning := None; weight := None;
                       summary := py "Search failed: " ++ exc_str e;
                       sources := [] |}
         | Ok specs => shoes r !! i = Some specs
         end.
Proof.
  intros Hne. eexists. split; [apply search_result_ok, Hne|].
  split; [|split; [|split; [|split]]].
  - intros dump. unfold AsyncShoeSearchTool._arun.
    rewrite search_result_ok by exact Hne. reflexivity.
  - reflexivity.
  - cbn [shoes]. apply length_map.
  - cbn [shoes]. apply entries_names.
  - intros i n Hi. cbn [shoes].
    apply (lookup_map (entry_for self)) in Hi. rewrite Hi. unfold entry_for.
    destruct (AsyncShoeSearchTool._search_single self n); reflexivity.
Qed.

Lemma lookup_failures_are_isolated_witness :
  exists r,
    AsyncShoeSearchTool.search_result (AsyncShoeSearchTool.new flaky_client)
      three_names_input = Ok r
    /\ (forall model_dump_json,
          AsyncShoeSearchTool._arun model_dump_json
            (AsyncShoeSearchTool.new flaky_client) three_names_input
          = Ok (model_dump_json r))
    /\ query r = three_names_input
    /\ length (shoes r)
       = length (AsyncShoeSearchTool.parse_names
                   (AsyncShoeSearchTool.new flaky_client) three_names_input)
    /\ List.map name (shoes r)
       = AsyncShoeSearchTool.parse_names
           (AsyncShoeSearchTool.new flaky_client) three_names_input
    /\ forall i n,
         AsyncShoeSearchTool.parse_names
           (AsyncShoeSearchTool.new flaky_client) three_names_input !! i = Some n ->
         match AsyncShoeSearchTool._search_single
                 (AsyncShoeSearchTool.new flaky_client) n with
         | Raise e =>
             shoes r !! i
             = Some {| name := n; heel_to_toe_drop := None; stack_height := None;
                       cushioning := None; weight := None;
                       summary := py "Search failed: " ++ exc_str e;
                       sources := [] |}
         | Ok specs => shoes r !! i = Some specs
         end.
Proof.
  apply (lookup_failures_are_isolated (AsyncShoeSearchTool.new flaky_client)
           three_names_input).
  vm_compute. discriminate.
Defined.

(** One failing lookup of three: three entries, the failing one annotated. *)
Example one_of_three_fails :
  exists r,
    AsyncShoeSearchTool.search_result (AsyncShoeSearchTool.new flaky_client)
      three_names_input = Ok r
    /\ List.map name (shoes r)
       = [py "Nike Pegasus 41"; py "Brooks Ghost 16"; py "Hoka Clifton 9"]
    /\ List.map summary (shoes r)
       = [ py "Specs of: Nike Pegasus 41 running shoe specs heel drop stack height weight";
           py "Search failed: connection reset";
           py "Specs of: Hoka Clifton 9 running shoe specs heel drop stack height weight" ]
    /\ List.map (fun s => length (sources s)) (shoes r) = [1; 0; 1]%nat.
Proof.
  eexists. split; [vm_compute; reflexivity|].
  split; [vm_compute; reflexivity|]. split; vm_compute; reflexivity.
Qed.

(* ===================================================================== *)
(** ** The orchestration loop *)
(* ===================================================================== *)

Lemma for_tool_calls_returns self calls messages :
  Forall (returns self) calls ->
  exists appended,
    for_tool_calls self calls messages = (messages ++ appended, None)
    /\ Forall2 (result_of self) appended calls.
Proof.
  intros Hcalls. revert messages.
  induction Hcalls as [|c calls Hc _ IH]; intros messages.
  - exists []. simpl. rewrite app_nil_r. split; [reflexivity | constructor].
  - unfold returns in Hc. simpl.
    destruct (_execute_tool self (call_name c) (call_args c)) as [out|e] eqn:E;
      [|discriminate Hc].
    destruct (IH (messages ++ [ToolMessage out (call_id c)])) as (appended & Hrun & Hall).
    exists (ToolMessage out (call_id c) :: appended). split.
    + rewrite Hrun, <- app_assoc. reflexivity.
    + constructor; [|exact Hall]. exists out. split; [exact E | reflexivity].
Qed.

Lemma for_tool_calls_raises self pre c post e messages :
  Forall (returns self) pre ->
  _execute_tool self (call_name c) (call_args c) = Raise e ->
  exists appended,
    for_tool_calls self (pre ++ c :: post) messages = (messages ++ appended, Some e)
    /\ Forall2 (result_of self) appended pre.
Proof.
  intros Hpre Hc. revert messages.
  induction Hpre as [|c' pre Hc' _ IH]; intros messages.
  - exists []. simpl. rewrite Hc, app_nil_r. split; [reflexivity | constructor].
  - unfold returns in Hc'. simpl.
    destruct (_execute_tool self (call_name c') (call_args c')) as [out|e'] eqn:E;
      [|discriminate Hc'].
    destruct (IH (messages ++ [ToolMessage out (call_id c')])) as (appended & Hrun & Hall).
    exists (ToolMessage out (call_id c') :: appended). split.
    + rewrite Hrun, <- app_assoc. reflexivity.
    + constructor; [|exact Hall]. exists out. split; [exact E | reflexivity].
Qed.



Lemma truthy_list_app {A} (pre : list A) c post : truthy_list (pre ++ c :: post) = true.
Proof. destruct pre; reflexivity. Qed.

(** A raising tool call ends the run: the exception reaches the caller of
    [run], the calls before it have their results, and the model is not
    invoked again. *)
Lemma run_loop_raises self fuel messages response pre c post e :
  llm_with_tools self messages = Ok response ->
  tool_calls response = pre ++ c :: post ->
  Forall (returns self) pre ->
  _execute_tool self (call_name c) (call_args c) = Raise e ->
  exists appended,
    Forall2 (result_of self) appended pre
    /\ run_loop self (S fuel) messages
       = {| outcome := Raised e;
            working := messages ++ [AssistantMessage response] ++ appended;
            invocations := [messages] |}.
Proof.
  intros Hllm Hcalls Hpre Hc.
  destruct (for_tool_calls_raises self pre c post e
              (messages ++ [AssistantMessage response]) Hpre Hc)
    as (appended & Hrun & Hall).
  exists appended. split; [exact Hall|].
  simpl. rewrite Hllm, Hcalls, truthy_list_app. cbn [negb].
  rewrite Hrun, <- app_assoc. reflexivity.
Qed.

Lemma execute_among_unknown registered name tool_input :
  Forall (fun tool => tool_name tool <> name) registered ->
  execute_among registered name tool_input
  = Raise (ValueError (py "Tool " ++ name ++ py " not found")).
Proof.
  induction 1 as [|tool registered Hne _ IH]; simpl; [reflexivity|].
  rewrite bool_decide_eq_false_2 by exact Hne. exact IH.
Qed.

Lemma calls_return_or_raise self calls :
  Forall (returns self) calls
  \/ exists pre c post e,
       calls = pre ++ c :: post
       /\ Forall (returns self) pre
       /\ _execute_tool self (call_name c) (call_args c) = Raise e.
Proof.
  induction calls as [|c calls [IH | (pre & c' & post & e & -> & Hpre & Hc')]].
  - left. constructor.
  - destruct (_execute_tool self (call_name c) (call_args c)) as [out|e] eqn:E.
    + left. constructor; [unfold returns; rewrite E; reflexivity | exact IH].
    + right. exists [], c, calls, e. repeat split; [constructor | exact E].
  - destruct (_execute_tool self (call_name c) (call_args c)) as [out|e0] eqn:E.
    + right. exists (c :: pre), c', post, e. repeat split; [|exact Hc'].
      constructor; [unfold returns; rewrite E; reflexivity | exact Hpre].
    + right. exists [], c, (pre ++ c' :: post), e0. repeat split; [constructor | exact E].
Qed.

Lemma run_loop_first_invocation self fuel messages :
  exists rest, invocations (run_loop self (S fuel) messages) = messages :: rest.
Proof.
  cbn [run_loop]. destruct (llm_with_tools self messages) as [response|e]; [|eauto].
  destruct (negb (truthy_list (tool_calls response))); [eauto|].
  destruct (for_tool_calls self _ _) as [messages' [e|]]; eauto.
Qed.

(** Whenever the model is invoked again after a response, the list it gets
    is the previous one, the response, and one Tool Result per tool call of
    the response, in the order of the calls. *)
Lemma next_invocation_sees_all_results self fuel messages response next rest :
  llm_with_tools self messages = Ok response ->
  invocations (run_loop self (S fuel) messages) = messages :: next :: rest ->
  exists appended,
    next = messages ++ [AssistantMessage response] ++ appended
    /\ Forall2 (result_of self) appended (tool_calls response).
Proof.
  intros Hllm Hinv.
  destruct (tool_calls response) as [|c0 calls0] eqn:Hcalls.
  { cbn [run_loop] in Hinv. rewrite Hllm, Hcalls in Hinv. discriminate Hinv. }
  rewrite <- Hcalls in *.
  destruct (calls_return_or_raise self (tool_calls response))
    as [Hall | (pre & c & post & e & Hsplit & Hpre & Hc)].
  - destruct (for_tool_calls_returns self (tool_calls response)
                (messages ++ [AssistantMessage response]) Hall)
      as (appended & Hrun & Hres).
    exists appended. split; [|exact Hres].
    cbn [run_loop] in Hinv. rewrite Hllm in Hinv.
    replace (negb (truthy_list (tool_calls response))) with false in Hinv
      by (rewrite Hcalls; reflexivity).
    rewrite Hrun in Hinv. cbn [invoked invocations] in Hinv.
    destruct fuel as [|fuel]; [discriminate Hinv|].
    destruct (run_loop_first_invocation self fuel
                ((messages ++ [AssistantMessage response]) ++ appended))
      as (rest' & Hfirst).
    rewrite Hfirst in Hinv. rewrite <- app_assoc in Hinv. congruence.
  - destruct (run_loop_raises self fuel messages response pre c post e
                Hllm Hsplit Hpre Hc) as (appended & _ & Hrun).
    rewrite Hrun in Hinv. discriminate Hinv.
Qed.

(** C8: when the model's first response asks for no tool, [run] ends in
    its first iteration, having invoked the model once, on the seeded
    message list, and returns that response's text as it is. *)
Theorem run_returns_first_answer
    (self : ShoeDiscoveryAgent) (user_input : str)
    (chat_history : option (list Message)) (response : AIMessage) (fuel : nat) :
  llm_with_tools self (seed user_input chat_history) = Ok response ->
  tool_calls response = [] ->
  run self (S fuel) user_input chat_history
  = {| outcome := Returned (ai_content response);
       working := seed user_input chat_history;
       invocations := [seed user_input chat_history] |}
  /\ length (invocations (run self (S fuel) user_input chat_history)) = 1%nat.
Proof.
  intros Hllm Hcalls.
  assert (E : run self (S fuel) user_input chat_history
              = {| outcome := Returned (ai_content response);
                   working := seed user_input chat_history;
                   invocations := [seed user_input chat_history] |}).
  { unfold run. cbn [run_loop]. rewrite Hllm, Hcalls. reflexivity. }
  split; [exact E|]. rewrite E. reflexivity.
Qed.


(** C2, as the code has it: a tool call whose name matches no registered
    tool makes [_execute_tool] raise a [ValueError] naming the tool, and
    the error ends the run: it reaches the caller of [run], the calls
    before it have their Tool Results, the call itself has none, and the
    model is not invoked again. *)
Theorem unknown_tool_aborts_run (self : ShoeDiscoveryAgent) (c : ToolCall) :
  Forall (fun tool => tool_name tool <> call_name c) (tools self) ->
  _execute_tool self (call_name c) (call_args c)
  = Raise (ValueError (py "Tool " ++ call_name c ++ py " not found"))
  /\ forall fuel messages response pre post,
       llm_with_tools self messages = Ok response ->
       tool_calls response = pre ++ c :: post ->
       Forall (returns self) pre ->
       exists appended,
         Forall2 (result_of self) appended pre
         /\ run_loop self (S fuel) messages
            = {| outcome :=
                   Raised (ValueError (py "Tool " ++ call_name c ++ py " not found"));
                 working := messages ++ [AssistantMessage response] ++ appended;
                 invocations := [messages] |}.
Proof.
  intros Hunknown.
  assert (E : _execute_tool self (call_name c) (call_args c)
              = Raise (ValueError (py "Tool " ++ call_name c ++ py " not found")))
    by (apply execute_among_unknown, Hunknown).
  split; [exact E|].
  intros fuel messages response pre post Hllm Hcalls Hpre.
  exact (run_loop_raises self fuel messages response pre c post _ Hllm Hcalls Hpre E).
Qed.

(** C6, as the code has it: a multi-shoe lookup whose input has no valid
    name raises a [ToolException], and when the loop dispatches such a call
    the exception ends the run: it reaches the caller of [run], the call has
    no Tool Result, and the model is not invoked again. *)
Theorem no_valid_names_aborts_run
    (client async_client : SearchParams -> Result Response)
    (dump_specs : ShoeSpecs -> str) (dump_result : ShoeSearchResult -> str)
    (llm : list Message -> Result AIMessage) (shoe_names : str) :
  AsyncShoeSearchTool.parse_names (AsyncShoeSearchTool.new async_client) shoe_names = [] ->
  AsyncShoeSearchTool._arun dump_result (AsyncShoeSearchTool.new async_client) shoe_names
  = Raise (ToolException (py "Multi-shoe search failed: No valid shoe names provided"))
  /\ forall fuel messages response pre c post d,
       let self :=
         {| tools := get_shoe_tools client async_client dump_specs dump_result;
            llm_with_tools := llm |} in
       llm messages = Ok response ->
       tool_calls response = pre ++ c :: post ->
       Forall (returns self) pre ->
       call_name c = AsyncShoeSearchTool.tool_name ->
       call_args c = Dict d ->
       d !! py "shoe_names" = Some shoe_names ->
       exists appended,
         Forall2 (result_of self) appended pre
         /\ run_loop self (S fuel) messages
            = {| outcome :=
                   Raised (ToolException
                             (py "Multi-shoe search failed: No valid shoe names provided"));
                 working := messages ++ [AssistantMessage response] ++ appended;
                 invocations := [messages] |}.
Proof.
  intros Hnone.
  assert (E : AsyncShoeSearchTool._arun dump_result
                (AsyncShoeSearchTool.new async_client) shoe_names
              = Raise (ToolException
                         (py "Multi-shoe search failed: No valid shoe names provided"))).
  { unfold AsyncShoeSearchTool._arun.
    rewrite search_result_no_names by exact Hnone. reflexivity. }
  split; [exact E|].
  intros fuel messages response pre c post d self Hllm Hcalls Hpre Hname Hargs Hd.
  apply (run_loop_raises self fuel messages response pre c post _ Hllm Hcalls Hpre).
  unfold _execute_tool, self. cbn [tools get_shoe_tools execute_among tool_name tool_arun].
  rewrite Hname, Hargs.
  rewrite bool_decide_eq_false_2 by (vm_compute; discriminate).
  rewrite bool_decide_eq_true_2 by reflexivity.
  unfold dict_get at 1. rewrite Hd. exact E.
Qed.

(* ===================================================================== *)
(** ** Concrete runs *)
(* ===================================================================== *)

Lemma run_returns_first_answer_witness :
  run direct_agent 1 question None
  = {| outcome := Returned (ai_content direct_answer);
       working := seed question None;
       invocations := [seed question None] |}
  /\ length (invocations (run direct_agent 1 question None)) = 1%nat.
Proof.
  apply (run_returns_first_answer direct_agent question None direct_answer 0);
    reflexivity.
Defined.


(** Two tool calls that return: two Tool Results, in the order of the
    calls, then the answer of the second model invocation. *)
Example run_two_calls :
  outcome (run (agent_with answering_client answering_client two_calls) 2 question None)
  = Returned (py "Here are the specs.")
  /\ result_ids
       (working (run (agent_with answering_client answering_client two_calls) 2 question None))
     = [py "call_1"; py "call_2"]
  /\ length
       (invocations
          (run (agent_with answering_client answering_client two_calls) 2 question None))
     = 2%nat.
Proof.
  split; [vm_compute; reflexivity|]. split; vm_compute; reflexivity.
Qed.


Lemma unknown_tool_aborts_run_witness :
  _execute_tool (agent_with answering_client answering_client [unknown_call])
    (call_name unknown_call) (call_args unknown_call)
  = Raise (ValueError (py "Tool " ++ call_name unknown_call ++ py " not found"))
  /\ forall fuel messages response pre post,
       llm_with_tools (agent_with answering_client answering_client [unknown_call])
         messages = Ok response ->
       tool_calls response = pre ++ unknown_call :: post ->
       Forall (returns (agent_with answering_client answering_client [unknown_call])) pre ->
       exists appended,
         Forall2 (result_of (agent_with answering_client answering_client [unknown_call]))
           appended pre
         /\ run_loop (agent_with answering_client answering_client [unknown_call])
              (S fuel) messages
            = {| outcome :=
                   Raised (ValueError
                             (py "Tool " ++ call_name unknown_call ++ py " not found"));
                 working := messages ++ [AssistantMessage response] ++ appended;
                 invocations := [messages] |}.
Proof.
  apply (unknown_tool_aborts_run
           (agent_with answering_client answering_client [unknown_call]) unknown_call).
  apply Forall_cons. split; [vm_compute; discriminate|].
  apply Forall_cons. split; [vm_compute; discriminate|].
  apply Forall_nil_2.
Defined.

(** C2, as the specification states it, fails: a call of a tool that is
    not registered leaves no Tool Result in the working list, the loop does
    not go on to a second model invocation, and [run] ends with the
    [ValueError]. *)
Lemma run_raises_on_unknown_tool :
  outcome (run (agent_with answering_client answering_client [unknown_call]) 2 question None)
  = Raised (ValueError (py "Tool shoe_price_search not found"))
  /\ tool_results
       (working
          (run (agent_with answering_client answering_client [unknown_call]) 2 question None))
     = []
  /\ invocations
       (run (agent_with answering_client answering_client [unknown_call]) 2 question None)
     = [seed question None].
Proof.
  split; [vm_compute; reflexivity|]. split; vm_compute; reflexivity.
Qed.

Lemma no_valid_names_aborts_run_witness :
  AsyncShoeSearchTool._arun dump_result0 (AsyncShoeSearchTool.new answering_client)
    (py " , ")
  = Raise (ToolException (py "Multi-shoe search failed: No valid shoe names provided"))
  /\ forall fuel messages response pre c post d,
       let self :=
         {| tools := get_shoe_tools answering_client answering_client
                       dump_specs0 dump_result0;
            llm_with_tools := scripted_llm [blank_call] |} in
       scripted_llm [blank_call] messages = Ok response ->
       tool_calls response = pre ++ c :: post ->
       Forall (returns self) pre ->
       call_name c = AsyncShoeSearchTool.tool_name ->
       call_args c = Dict d ->
       d !! py "shoe_names" = Some (py " , ") ->
       exists appended,
         Forall2 (result_of self) appended pre
         /\ run_loop self (S fuel) messages
            = {| outcome :=
                   Raised (ToolException
                             (py "Multi-shoe search failed: No valid shoe names provided"));
                 working := messages ++ [AssistantMessage response] ++ appended;
                 invocations := [messages] |}.
Proof.
  apply (no_valid_names_aborts_run answering_client answering_client
           dump_specs0 dump_result0 (scripted_llm [blank_call]) (py " , ")).
  vm_compute. reflexivity.
Defined.

(** C6, as the specification states it, fails in its second half: the
    lookup of an input without a valid name raises, as stated, but the
    error leaves no Tool Result in the working list; the loop does not go
    on to a second model invocation, and [run] ends with the exception. *)
Lemma run_raises_on_no_valid_names :
  AsyncShoeSearchTool.parse_names (AsyncShoeSearchTool.new answering_client) (py " , ") = []
  /\ outcome (run (agent_with answering_client answering_client [blank_call]) 2 question None)
     = Raised (ToolException (py "Multi-shoe search failed: No valid shoe names provided"))
  /\ tool_results
       (working
          (run (agent_with answering_client answering_client [blank_call]) 2 question None))
     = []
  /\ invocations
       (run (agent_with answering_client answering_client [blank_call]) 2 question None)
     = [seed question None].
Proof.
  split; [vm_compute; reflexivity|]. split; [vm_compute; reflexivity|].
  split; vm_compute; reflexivity.
Qed.

(* ===================================================================== *)
(** ** More on the names of a multi-shoe lookup *)
(* ===================================================================== *)






(** X1: Reading the names of an input, joining them and reading them again
    changes nothing: what [_arun] reads is a list of names that it reads
    back as they are. *)
Theorem parse_names_idempotent
    (client : SearchParams -> Result Response) (shoe_names : str) :
  let self := AsyncShoeSearchTool.new client in
  AsyncShoeSearchTool.parse_names self
    (join (py ", ") (AsyncShoeSearchTool.parse_names self shoe_names))
  = AsyncShoeSearchTool.parse_names self shoe_names.
Proof.
  cbv zeta. rewrite (parse_names_requested _ (join _ _)).
  unfold requested_names.
  rewrite <- (app_nil_l (join (py ", ") _)).
  change (py ", ") with (comma :: [32]).
  rewrite names_of_join.
  - apply take_ge. rewrite parse_names_requested, length_take.
    apply Nat.le_min_l.
  - repeat constructor.
  - constructor.
  - rewrite parse_names_requested. apply Forall_take, requested_valid.
Qed.


(** A name with a comma in it is looked up as two shoes. *)
Example quick_search_comma_example :
  exists r,
    AsyncShoeSearchTool.search_result (AsyncShoeSearchTool.new answering_client)
      (join (py ", ") [py "Nike Pegasus 41,Brooks Ghost 16"; py " "; py "Hoka Clifton 9"])
    = Ok r
    /\ List.map name (shoes r)
       = [py "Nike Pegasus 41"; py "Brooks Ghost 16"; py "Hoka Clifton 9"].
Proof. eexists. split; vm_compute; reflexivity. Qed.

(* ===================================================================== *)
(** ** What a lookup's result holds *)
(* ===================================================================== *)

Lemma parsed_sources_bounded shoe_name response :
  (length (sources (AsyncShoeSearchTool._parse_response shoe_name response)) <= 3)%nat
  /\ Forall (fun s => (length (content s) <= 500)%nat
                      /\ PrimFloat.ltb 0.5%float (score s) = true)
       (sources (AsyncShoeSearchTool._parse_response shoe_name response)).
Proof.
  change (AsyncShoeSearchTool._parse_response shoe_name response)
    with (ShoeSearchTool._parse_response shoe_name response).
  rewrite parse_response_sources. split.
  - rewrite length_map, length_take. lia.
  - apply Forall_forall. intros s Hs.
    apply list_elem_of_In, in_map_iff in Hs as (r & <- & Hr).
    apply list_elem_of_In, subseteq_take, list_elem_of_In, filter_In in Hr as [_ Hpass].
    split; [|exact Hpass]. simpl. rewrite length_take. lia.
Qed.

(** X3: Every entry of a multi-shoe lookup's result, of a lookup that returned
    or of one that failed, leaves the four specification fields unset and
    holds at most three sources, each with a content of at most 500
    characters and a score above 0.5; the result carries the input string
    as it was given and no raw answer. *)
Theorem multi_result_entries
    (self : AsyncShoeSearchTool.t) (shoe_names : str) (r : ShoeSearchResult) :
  AsyncShoeSearchTool.search_result self shoe_names = Ok r ->
  query r = shoe_names
  /\ raw_answer r = None
  /\ Forall (fun shoe =>
               heel_to_toe_drop shoe = None /\ stack_height shoe = None
               /\ cushioning shoe = None /\ weight shoe = None
               /\ (length (sources shoe) <= 3)%nat
               /\ Forall (fun s => (length (content s) <= 500)%nat
                                   /\ PrimFloat.ltb 0.5%float (score s) = true)
                    (sources shoe))
       (shoes r).
Proof.
  intros Hr. apply search_result_inv in Hr. subst r. cbn [query raw_answer shoes].
  split; [reflexivity|]. split; [reflexivity|].
  apply Forall_forall. intros shoe Hshoe.
  apply list_elem_of_In, in_map_iff in Hshoe as (n & <- & _).
  unfold entry_for, AsyncShoeSearchTool._search_single. cbv zeta.
  destruct (AsyncShoeSearchTool.async_client self _) as [response|e]; cbn [bind].
  - destruct (parsed_sources_bounded n response) as [Hlen Hall].
    repeat split; try reflexivity; assumption.
  - repeat split; try reflexivity; simpl; [lia | constructor].
Qed.

Lemma multi_result_entries_witness :
  query pegasus_result = pegasus_input
  /\ raw_answer pegasus_result = None
  /\ Forall (fun shoe =>
               heel_to_toe_drop shoe = None /\ stack_height shoe = None
               /\ cushioning shoe = None /\ weight shoe = None
               /\ (length (sources shoe) <= 3)%nat
               /\ Forall (fun s => (length (content s) <= 500)%nat
                                   /\ PrimFloat.ltb 0.5%float (score s) = true)
                    (sources shoe))
       (shoes pegasus_result).
Proof.
  apply (multi_result_entries (AsyncShoeSearchTool.new answering_client)
           pegasus_input pegasus_result).
  vm_compute. reflexivity.
Defined.

(* ===================================================================== *)
(** ** Tool dispatch *)
(* ===================================================================== *)

Lemma dict_get_preferring d first second :
  dict_get d first (dict_get d second []) = preferring first second (Dict d).
Proof.
  unfold dict_get, preferring.
  destruct (d !! first), (d !! second); reflexivity.
Qed.

(** X4: [_execute_tool] runs the first registered tool of the given name, and
    no other: its [_arun] when it has one, on the value of "shoe_names" if
    the arguments have that key, else of "shoe_name", else on the empty
    string; its [_run] otherwise, with the two keys in the other order. *)
Theorem execute_first_match
    (self : ShoeDiscoveryAgent) (before after : list BaseTool) (tool : BaseTool)
    (tool_input : ToolInput) :
  tools self = before ++ tool :: after ->
  Forall (fun other => tool_name other <> tool_name tool) before ->
  _execute_tool self (tool_name tool) tool_input
  = match tool_arun tool with
    | Some _arun => _arun (preferring (py "shoe_names") (py "shoe_name") tool_input)
    | None => tool_run tool (preferring (py "shoe_name") (py "shoe_names") tool_input)
    end.
Proof.
  intros Htools Hbefore. unfold _execute_tool. rewrite Htools. clear Htools.
  induction Hbefore as [|other before Hne _ IH]; simpl.
  - rewrite bool_decide_eq_true_2 by reflexivity.
    destruct tool_input as [d|repr]; [|reflexivity].
    rewrite !dict_get_preferring. reflexivity.
  - rewrite bool_decide_eq_false_2 by exact Hne. exact IH.
Qed.

Lemma execute_registered client async_client dump_specs dump_result llm name tool_input :
  _execute_tool
    {| tools := get_shoe_tools client async_client dump_specs dump_result;
       llm_with_tools := llm |} name tool_input
  = if bool_decide (name = ShoeSearchTool.tool_name) then
      ShoeSearchTool._run dump_specs (ShoeSearchTool.new client)
        (preferring (py "shoe_names") (py "shoe_name") tool_input)
    else if bool_decide (name = AsyncShoeSearchTool.tool_name) then
      AsyncShoeSearchTool._arun dump_result (AsyncShoeSearchTool.new async_client)
        (preferring (py "shoe_names") (py "shoe_name") tool_input)
    else Raise (ValueError (py "Tool " ++ name ++ py " not found")).
Proof.
  unfold _execute_tool.
  cbn [tools get_shoe_tools execute_among tool_name tool_arun].
  rewrite (bool_decide_ext (ShoeSearchTool.tool_name = name)
             (name = ShoeSearchTool.tool_name)) by (split; congruence).
  rewrite (bool_decide_ext (AsyncShoeSearchTool.tool_name = name)
             (name = AsyncShoeSearchTool.tool_name)) by (split; congruence).
  destruct tool_input as [d|repr]; [rewrite !dict_get_preferring|]; reflexivity.
Qed.

Lemma execute_first_match_witness :
  _execute_tool (agent_with answering_client answering_client [])
    (tool_name
       {| tool_name := AsyncShoeSearchTool.tool_name;
          tool_arun :=
            Some (AsyncShoeSearchTool._arun dump_result0
                    (AsyncShoeSearchTool.new answering_client));
          tool_run :=
            AsyncShoeSearchTool._run dump_result0
              (AsyncShoeSearchTool.new answering_client) |})
    (Dict {[ py "shoe_name" := py "Hoka Clifton 9" ]})
  = AsyncShoeSearchTool._arun dump_result0 (AsyncShoeSearchTool.new answering_client)
      (preferring (py "shoe_names") (py "shoe_name")
         (Dict {[ py "shoe_name" := py "Hoka Clifton 9" ]})).
Proof.
  apply (execute_first_match (agent_with answering_client answering_client [])
           [ {| tool_name := ShoeSearchTool.tool_name;
                tool_arun :=
                  Some (ShoeSearchTool._run dump_specs0
                          (ShoeSearchTool.new answering_client));
                tool_run :=
                  ShoeSearchTool._run dump_specs0
                    (ShoeSearchTool.new answering_client) |} ]
           []).
  - reflexivity.
  - apply Forall_cons. split; [vm_compute; discriminate | apply Forall_nil_2].
Defined.



(** X6: A provider failure during a single-shoe lookup is not absorbed: [_run]
    raises a [ToolException] that names the shoe and the failure, and when
    the loop dispatches such a call the exception ends the run, with no
    Tool Result for the call and no further model invocation. *)
Theorem single_lookup_failure_aborts_run
    (client async_client : SearchParams -> Result Response)
    (dump_specs : ShoeSpecs -> str) (dump_result : ShoeSearchResult -> str)
    (llm : list Message -> Result AIMessage) (shoe_name : str) (e : Exception) :
  client (default_search_params shoe_name) = Raise e ->
  ShoeSearchTool._run dump_specs (ShoeSearchTool.new client) shoe_name
  = Raise (ToolException
             (py "Failed to search for " ++ shoe_name ++ py ": " ++ exc_str e))
  /\ forall fuel messages response pre c post,
       let self :=
         {| tools := get_shoe_tools client async_client dump_specs dump_result;
            llm_with_tools := llm |} in
       llm messages = Ok response ->
       tool_calls response = pre ++ c :: post ->
       Forall (returns self) pre ->
       call_name c = ShoeSearchTool.tool_name ->
       preferring (py "shoe_names") (py "shoe_name") (call_args c) = shoe_name ->
       exists appended,
         Forall2 (result_of self) appended pre
         /\ run_loop self (S fuel) messages
            = {| outcome :=
                   Raised (ToolException
                             (py "Failed to search for " ++ shoe_name ++ py ": "
                              ++ exc_str e));
                 working := messages ++ [AssistantMessage response] ++ appended;
                 invocations := [messages] |}.
Proof.
  intros Hfail.
  assert (E : ShoeSearchTool._run dump_specs (ShoeSearchTool.new client) shoe_name
              = Raise (ToolException
                         (py "Failed to search for " ++ shoe_name ++ py ": "
                          ++ exc_str e))).
  { unfold ShoeSearchTool._run. cbv zeta.
    unfold default_search_params in Hfail.
    cbn [ShoeSearchTool.new ShoeSearchTool.search_depth
         ShoeSearchTool.use_domain_filter ShoeSearchTool.client].
    unfold ShoeSearchTool._build_query. rewrite Hfail. reflexivity. }
  split; [exact E|].
  intros fuel messages response pre c post self Hllm Hcalls Hpre Hname Hvalue.
  apply (run_loop_raises self fuel messages response pre c post _ Hllm Hcalls Hpre).
  unfold self. rewrite execute_registered, Hname.
  rewrite bool_decide_eq_true_2 by reflexivity. rewrite Hvalue. exact E.
Qed.

Lemma single_lookup_failure_aborts_run_witness :
  ShoeSearchTool._run dump_specs0 (ShoeSearchTool.new failing_client) (py "Hoka Clifton 9")
  = Raise (ToolException
             (py "Failed to search for " ++ py "Hoka Clifton 9" ++ py ": "
              ++ exc_str (TransportError (py "connection reset"))))
  /\ forall fuel messages response pre c post,
       let self :=
         {| tools := get_shoe_tools failing_client answering_client
                       dump_specs0 dump_result0;
            llm_with_tools := scripted_llm [one_shoe_call] |} in
       scripted_llm [one_shoe_call] messages = Ok response ->
       tool_calls response = pre ++ c :: post ->
       Forall (returns self) pre ->
       call_name c = ShoeSearchTool.tool_name ->
       preferring (py "shoe_names") (py "shoe_name") (call_args c) = py "Hoka Clifton 9" ->
       exists appended,
         Forall2 (result_of self) appended pre
         /\ run_loop self (S fuel) messages
            = {| outcome :=
                   Raised (ToolException
                             (py "Failed to search for " ++ py "Hoka Clifton 9" ++ py ": "
                              ++ exc_str (TransportError (py "connection reset"))));
                 working := messages ++ [AssistantMessage response] ++ appended;
                 invocations := [messages] |}.
Proof.
  apply (single_lookup_failure_aborts_run failing_client answering_client
           dump_specs0 dump_result0 (scripted_llm [one_shoe_call])
           (py "Hoka Clifton 9") (TransportError (py "connection reset"))).
  reflexivity.
Defined.

(* ===================================================================== *)
(** ** Configuration *)
(* ===================================================================== *)

Lemma get_tavily_api_key_ok environ key :
  environ !! py "TAVILY_API_KEY" = Some key -> key <> [] ->
  get_tavily_api_key environ = Ok key.
Proof.
  intros E Hne. unfold get_tavily_api_key. rewrite E.
  destruct key; [congruence | reflexivity].
Qed.

Lemma get_tavily_api_key_missing environ :
  ~ configured environ (py "TAVILY_API_KEY") ->
  get_tavily_api_key environ
  = Raise (ValueError
             (py "TAVILY_API_KEY environment variable is required. "
              ++ py "Get your key at https://tavily.com")).
Proof.
  intros Hno. unfold get_tavily_api_key.
  destruct (environ !! py "TAVILY_API_KEY") as [key|] eqn:E; [|reflexivity].
  destruct key as [|c key]; [reflexivity|].
  exfalso. apply Hno. exists (c :: key). split; [exact E | discriminate].
Qed.

Lemma get_openai_api_key_ok environ key :
  environ !! py "OPENAI_API_KEY" = Some key -> key <> [] ->
  get_openai_api_key environ = Ok key.
Proof.
  intros E Hne. unfold get_openai_api_key. rewrite E.
  destruct key; [congruence | reflexivity].
Qed.

Lemma get_openai_api_key_missing environ :
  ~ configured environ (py "OPENAI_API_KEY") ->
  get_openai_api_key environ
  = Raise (ValueError
             (py "OPENAI_API_KEY environment variable is required. "
              ++ py "Get your key at https://platform.openai.com/api-keys")).
Proof.
  intros Hno. unfold get_openai_api_key.
  destruct (environ !! py "OPENAI_API_KEY") as [key|] eqn:E; [|reflexivity].
  destruct key as [|c key]; [reflexivity|].
  exfalso. apply Hno. exists (c :: key). split; [exact E | discriminate].
Qed.

(** X7: The agent is constructed exactly when the environment sets both keys
    to non-empty values, and its tools then are the single-shoe and the
    multi-shoe search around clients made from the provider's key. Without
    the model's key the construction raises the error about that key,
    whatever the provider's key is; with it and without the provider's key,
    the error about the provider's key. An empty key counts as a missing
    one. *)
Theorem agent_needs_both_keys {LLM : Type}
    (TavilyClient AsyncTavilyClient : str -> SearchParams -> Result Response)
    (ChatOpenAI : str -> float -> str -> LLM)
    (bind_tools : LLM -> list BaseTool -> list Message -> Result AIMessage)
    (dump_specs : ShoeSpecs -> str) (dump_result : ShoeSearchResult -> str)
    (environ : gmap str str) (model_name : str) (temperature : float) :
  let init :=
    ShoeDiscoveryAgent_init TavilyClient AsyncTavilyClient ChatOpenAI bind_tools
      dump_specs dump_result environ model_name temperature in
  (~ configured environ (py "OPENAI_API_KEY") ->
   init = Raise (ValueError
                   (py "OPENAI_API_KEY environment variable is required. "
                    ++ py "Get your key at https://platform.openai.com/api-keys")))
  /\ (configured environ (py "OPENAI_API_KEY") ->
      ~ configured environ (py "TAVILY_API_KEY") ->
      init = Raise (ValueError
                      (py "TAVILY_API_KEY environment variable is required. "
                       ++ py "Get your key at https://tavily.com")))
  /\ (forall openai_key tavily_key,
        environ !! py "OPENAI_API_KEY" = Some openai_key -> openai_key <> [] ->
        environ !! py "TAVILY_API_KEY" = Some tavily_key -> tavily_key <> [] ->
        let registered :=
          get_shoe_tools (TavilyClient tavily_key) (AsyncTavilyClient tavily_key)
            dump_specs dump_result in
        init = Ok {| tools := registered;
                     llm_with_tools :=
                       bind_tools (ChatOpenAI model_name temperature openai_key)
                         registered |}
        /\ List.map tool_name registered
           = [py "shoe_specs_search"; py "multi_shoe_search"]).
Proof.
  cbv zeta. unfold ShoeDiscoveryAgent_init, get_shoe_tools_from,
    ShoeSearchTool_init, AsyncShoeSearchTool_init.
  split; [|split].
  - intros Hno. rewrite get_openai_api_key_missing by exact Hno. reflexivity.
  - intros (key & E & Hne) Hno.
    rewrite (get_openai_api_key_ok _ _ E Hne).
    rewrite get_tavily_api_key_missing by exact Hno. reflexivity.
  - intros openai_key tavily_key Eo Ho Et Ht.
    rewrite (get_openai_api_key_ok _ _ Eo Ho), (get_tavily_api_key_ok _ _ Et Ht).
    split; reflexivity.
Qed.

(* ===================================================================== *)
(** ** What a run goes through *)
(* ===================================================================== *)

Lemma conversation_trans self a b c :
  conversation self a b -> conversation self b c -> conversation self a c.
Proof.
  intros Hab Hbc. induction Hbc as [|m r appended _ IH Hllm Hne Hres]; [exact Hab|].
  apply conversation_round; assumption.
Qed.

Lemma conversation_prefix self a b : conversation self a b -> a `prefix_of` b.
Proof.
  induction 1 as [|m r appended _ IH _ _ _]; [reflexivity|].
  etransitivity; [exact IH | apply prefix_app_r; reflexivity].
Qed.

(** One iteration of the loop: the model fails; or it answers without tool
    calls; or a tool call raises; or all tool calls return and the loop
    goes on from the extended list. *)
Lemma run_loop_cases self fuel messages :
  (exists e,
     llm_with_tools self messages = Raise e
     /\ run_loop self (S fuel) messages
        = {| outcome := Raised e; working := messages; invocations := [messages] |})
  \/ (exists r,
        llm_with_tools self messages = Ok r /\ tool_calls r = []
        /\ run_loop self (S fuel) messages
           = {| outcome := Returned (ai_content r); working := messages;
                invocations := [messages] |})
  \/ (exists r pre c post e appended,
        llm_with_tools self messages = Ok r
        /\ tool_calls r = pre ++ c :: post
        /\ Forall2 (result_of self) appended pre
        /\ _execute_tool self (call_name c) (call_args c) = Raise e
        /\ run_loop self (S fuel) messages
           = {| outcome := Raised e;
                working := messages ++ AssistantMessage r :: appended;
                invocations := [messages] |})
  \/ (exists r appended,
        llm_with_tools self messages = Ok r
        /\ tool_calls r <> []
        /\ Forall2 (result_of self) appended (tool_calls r)
        /\ run_loop self (S fuel) messages
           = invoked messages
               (run_loop self fuel (messages ++ AssistantMessage r :: appended))).
Proof.
  destruct (llm_with_tools self messages) as [r|e] eqn:Hllm.
  2:{ left. exists e. split; [reflexivity|]. cbn [run_loop]. rewrite Hllm. reflexivity. }
  right. destruct (tool_calls r) as [|c0 calls0] eqn:Hcalls.
  { left. exists r. repeat split; [exact Hcalls|].
    cbn [run_loop]. rewrite Hllm, Hcalls. reflexivity. }
  right.
  destruct (calls_return_or_raise self (tool_calls r))
    as [Hall | (pre & c & post & e & Hsplit & Hpre & Hc)].
  - right. destruct (for_tool_calls_returns self (tool_calls r)
                       (messages ++ [AssistantMessage r]) Hall)
      as (appended & Hrun & Hres).
    exists r, appended. repeat split; [congruence | exact Hres |].
    cbn [run_loop]. rewrite Hllm, Hrun.
    replace (negb (truthy_list (tool_calls r))) with false
      by (rewrite Hcalls; reflexivity).
    rewrite <- app_assoc. reflexivity.
  - left. destruct (run_loop_raises self fuel messages r pre c post e
                      Hllm Hsplit Hpre Hc) as (appended & Hres & Hrun).
    exists r, pre, c, post, e, appended. repeat split; try assumption.
Qed.

Lemma last_invoked messages (r : Run) m :
  last (invocations r) = Some m -> last (invocations (invoked messages r)) = Some m.
Proof.
  cbn [invoked invocations]. destruct (invocations r); [discriminate | auto].
Qed.

(** X8: Every message list that [run] invokes the model with is the list it
    started from, extended by complete rounds: the model's own response to
    the list so far, then one Tool Result per tool call of that response, in
    the order of the calls. Nothing of the list is ever removed or
    changed. *)
Theorem invocations_are_conversations
    (self : ShoeDiscoveryAgent) (fuel : nat) (messages m : list Message) :
  m ∈ invocations (run_loop self fuel messages) ->
  conversation self messages m /\ messages `prefix_of` m.
Proof.
  intros Hm.
  assert (Hconv : conversation self messages m).
  { revert messages Hm. induction fuel as [|fuel IH]; intros messages Hm.
    - apply elem_of_nil in Hm. destruct Hm.
    - destruct (run_loop_cases self fuel messages)
        as [(e & _ & E) | [(r & _ & _ & E) | [(r & pre & c & post & e & appended & _ & _ & _ & _ & E)
           | (r & appended & Hllm & Hne & Hres & E)]]];
        rewrite E in Hm; cbn [invocations invoked] in Hm.
      + apply list_elem_of_singleton in Hm as ->. constructor.
      + apply list_elem_of_singleton in Hm as ->. constructor.
      + apply list_elem_of_singleton in Hm as ->. constructor.
      + apply elem_of_cons in Hm as [->|Hm]; [constructor|].
        eapply conversation_trans; [|exact (IH _ Hm)].
        apply conversation_round; [constructor | assumption..]. }
  split; [exact Hconv | exact (conversation_prefix _ _ _ Hconv)].
Qed.

(** X9: When [run] returns a text, that text is the content of a response of
    the model that asks for no tool: the response to the last list the
    model was invoked with, a list reached from the start by complete
    rounds. *)
Theorem run_returns_tool_free_response
    (self : ShoeDiscoveryAgent) (fuel : nat) (messages : list Message) (text : str) :
  outcome (run_loop self fuel messages) = Returned text ->
  exists m r,
    conversation self messages m
    /\ last (invocations (run_loop self fuel messages)) = Some m
    /\ working (run_loop self fuel messages) = m
    /\ llm_with_tools self m = Ok r
    /\ tool_calls r = []
    /\ text = ai_content r.
Proof.
  revert messages. induction fuel as [|fuel IH]; intros messages Hout.
  - discriminate Hout.
  - destruct (run_loop_cases self fuel messages)
      as [(e & _ & E) | [(r & Hllm & Hcalls & E) | [(r & pre & c & post & e & appended & _ & _ & _ & _ & E)
         | (r & appended & Hllm & Hne & Hres & E)]]];
      rewrite E in Hout |- *; cbn [outcome invoked] in Hout; try discriminate Hout.
    + exists messages, r. injection Hout as <-.
      repeat split; [constructor | assumption..].
    + destruct (IH _ Hout) as (m & r' & Hconv & Hlast & Hwork & Hllm' & Hcalls' & Htext).
      exists m, r'. split; [|split; [|split]].
      * eapply conversation_trans; [|exact Hconv].
        apply conversation_round; [constructor | assumption..].
      * apply last_invoked, Hlast.
      * exact Hwork.
      * auto.
Qed.

(** X10: When [run] raises, the exception is the model's, raised at the last
    list the model was invoked with, or a tool's, raised by a call of the
    model's response to that list after the calls before it had their Tool
    Results appended. *)
Theorem run_raises_model_or_tool_error
    (self : ShoeDiscoveryAgent) (fuel : nat) (messages : list Message) (e : Exception) :
  outcome (run_loop self fuel messages) = Raised e ->
  exists m,
    conversation self messages m
    /\ last (invocations (run_loop self fuel messages)) = Some m
    /\ ((llm_with_tools self m = Raise e
         /\ working (run_loop self fuel messages) = m)
        \/ exists r pre c post appended,
             llm_with_tools self m = Ok r
             /\ tool_calls r = pre ++ c :: post
             /\ Forall2 (result_of self) appended pre
             /\ _execute_tool self (call_name c) (call_args c) = Raise e
             /\ working (run_loop self fuel messages)
                = m ++ AssistantMessage r :: appended).
Proof.
  revert messages. induction fuel as [|fuel IH]; intros messages Hout.
  - discriminate Hout.
  - destruct (run_loop_cases self fuel messages)
      as [(e' & Hllm & E) | [(r & Hllm & Hcalls & E)
         | [(r & pre & c & post & e' & appended & Hllm & Hsplit & Hres & Hc & E)
         | (r & appended & Hllm & Hne & Hres & E)]]];
      rewrite E in Hout |- *; cbn [outcome invoked] in Hout; try discriminate Hout.
    + injection Hout as ->. exists messages.
      split; [constructor|]. split; [reflexivity|]. left. auto.
    + injection Hout as ->. exists messages.
      split; [constructor|]. split; [reflexivity|]. right.
      exists r, pre, c, post, appended. auto.
    + destruct (IH _ Hout) as (m & Hconv & Hlast & Hcase).
      exists m. split; [|split].
      * eapply conversation_trans; [|exact Hconv].
        apply conversation_round; [constructor | assumption..].
      * apply last_invoked, Hlast.
      * exact Hcase.
Qed.

Lemma invocations_are_conversations_witness :
  conversation (agent_with answering_client answering_client two_calls)
    (seed question None) second_invocation
  /\ seed question None `prefix_of` second_invocation.
Proof.
  apply (invocations_are_conversations
           (agent_with answering_client answering_client two_calls) 2).
  vm_compute. apply list_elem_of_further, list_elem_of_here.
Defined.

Lemma run_returns_tool_free_response_witness :
  exists m r,
    conversation (agent_with answering_client answering_client two_calls)
      (seed question None) m
    /\ last (invocations
               (run_loop (agent_with answering_client answering_client two_calls) 2
                  (seed question None))) = Some m
    /\ working (run_loop (agent_with answering_client answering_client two_calls) 2
                  (seed question None)) = m
    /\ llm_with_tools (agent_with answering_client answering_client two_calls) m = Ok r
    /\ tool_calls r = []
    /\ py "Here are the specs." = ai_content r.
Proof.
  apply (run_returns_tool_free_response
           (agent_with answering_client answering_client two_calls) 2
           (seed question None) (py "Here are the specs.")).
  vm_compute. reflexivity.
Defined.

Lemma run_raises_model_or_tool_error_witness :
  exists m,
    conversation (agent_with answering_client answering_client [unknown_call])
      (seed question None) m
    /\ last (invocations
               (run_loop (agent_with answering_client answering_client [unknown_call]) 2
                  (seed question None))) = Some m
    /\ ((llm_with_tools (agent_with answering_client answering_client [unknown_call]) m
         = Raise (ValueError (py "Tool shoe_price_search not found"))
         /\ working (run_loop (agent_with answering_client answering_client [unknown_call])
                       2 (seed question None)) = m)
        \/ exists r pre c post appended,
             llm_with_tools (agent_with answering_client answering_client [unknown_call]) m
             = Ok r
             /\ tool_calls r = pre ++ c :: post
             /\ Forall2 (result_of (agent_with answering_client answering_client
                                      [unknown_call])) appended pre
             /\ _execute_tool (agent_with answering_client answering_client [unknown_call])
                  (call_name c) (call_args c)
                = Raise (ValueError (py "Tool shoe_price_search not found"))
             /\ working (run_loop (agent_with answering_client answering_client
                                     [unknown_call]) 2 (seed question None))
                = m ++ AssistantMessage r :: appended).
Proof.
  apply (run_raises_model_or_tool_error
           (agent_with answering_client answering_client [unknown_call]) 2
           (seed question None) (ValueError (py "Tool shoe_price_search not found"))).
  vm_compute. reflexivity.
Defined.

(* ===================================================================== *)
(** ** Streaming *)
(* ===================================================================== *)

Section stream_facts.
Context {Chunk : Type} `{AIMessageChunk Chunk}.
Variable astream : list Message -> list Chunk * option Exception.

Lemma consume_fragments (chunks : list Chunk) (full_response : option Chunk) :
  (consume chunks full_response).1
  = List.filter truthy (List.map chunk_content chunks).
Proof.
  revert full_response. induction chunks as [|chunk chunks IH]; intros full_response;
    [reflexivity|].
  cbn [consume List.map List.filter].
  specialize (IH (Some match full_response with
                       | Some full => chunk_add full chunk
                       | None => chunk
                       end)).
  destruct (consume chunks _) as [fragments full]. cbn [fst] in IH |- *.
  rewrite IH. destruct (truthy (chunk_content chunk)); reflexivity.
Qed.

Lemma for_tool_calls_stream_messages self calls messages :
  exists notices,
    for_tool_calls_stream self calls messages
    = (notices, (for_tool_calls self calls messages).1,
       (for_tool_calls self calls messages).2)
    /\ Forall (fun y => y = searching_notice) notices.
Proof.
  revert messages. induction calls as [|c calls IH]; intros messages.
  - exists []. split; [reflexivity | constructor].
  - cbn [for_tool_calls_stream for_tool_calls].
    destruct (_execute_tool self (call_name c) (call_args c)) as [out|e].
    + destruct (IH (messages ++ [ToolMessage out (call_id c)])) as (notices & -> & Hall).
      exists (searching_notice :: notices). split; [reflexivity|].
      constructor; [reflexivity | exact Hall].
    + exists [searching_notice]. split; [reflexivity|]. repeat constructor.
Qed.

Lemma stream_loop_cases self fuel messages chunks failure :
  astream messages = (chunks, failure) ->
  let fragments := List.filter truthy (List.map chunk_content chunks) in
  let finished :=
    {| yielded := fragments; ended := Finished; stream_working := messages;
       stream_invocations := [messages] |} in
  stream_loop astream self (S fuel) messages
  = match failure with
    | Some e =>
        {| yielded := fragments; ended := Failed e; stream_working := messages;
           stream_invocations := [messages] |}
    | None =>
        match (consume chunks None).2 with
        | None => finished
        | Some full_response =>
            if negb (truthy_list (chunk_tool_calls full_response)) then finished
            else
              match for_tool_calls_stream self (chunk_tool_calls full_response)
                      (messages ++ [AssistantMessage (message_of_chunk full_response)])
              with
              | (notices, messages', Some e) =>
                  {| yielded := fragments ++ notices; ended := Failed e;
                     stream_working := messages';
                     stream_invocations := [messages] |}
              | (notices, messages', None) =>
                  streamed (fragments ++ notices) messages
                    (stream_loop astream self fuel messages')
              end
        end
    end.
Proof.
  intros Hstream. cbv zeta. cbn [stream_loop]. rewrite Hstream.
  rewrite <- (consume_fragments chunks None).
  destruct (consume chunks None) as [fragments full]. reflexivity.
Qed.

(** X11: The first response of a stream: the fragments yielded are the non-empty
    texts of the chunks delivered, in order; when the model fails, the
    stream fails with its exception after them; when the chunks sum up to a
    response without tool calls, or when there is no chunk at all, the
    stream ends there, after one model invocation. *)
Theorem stream_first_response
    (self : ShoeDiscoveryAgent) (fuel : nat) (user_input : str)
    (chat_history : option (list Message))
    (chunks : list Chunk) (failure : option Exception) :
  astream (seed user_input chat_history) = (chunks, failure) ->
  (forall full_response,
     failure = None ->
     (consume chunks None).2 = Some full_response ->
     chunk_tool_calls full_response = []) ->
  stream astream self (S fuel) user_input chat_history
  = {| yielded := List.filter truthy (List.map chunk_content chunks);
       ended := match failure with Some e => Failed e | None => Finished end;
       stream_working := seed user_input chat_history;
       stream_invocations := [seed user_input chat_history] |}.
Proof.
  intros Hstream Hcalls. unfold stream.
  rewrite (stream_loop_cases self fuel _ chunks failure Hstream). cbv zeta.
  destruct failure as [e|]; [reflexivity|].
  destruct (consume chunks None).2 as [full|] eqn:E; [|reflexivity].
  rewrite (Hcalls full eq_refl eq_refl). reflexivity.
Qed.


(** X13: When the streamed model and the invoked one answer every message list
    alike, [stream] and [run] go through the same conversation: they invoke
    the model with the same lists, leave the same working list, and end
    alike, the stream finishing where the run returns and failing with the
    exception that the run raises. *)
Theorem stream_follows_run
    (self : ShoeDiscoveryAgent) (fuel : nat) (messages : list Message) :
  (forall m, stream_agrees astream self m) ->
  stream_invocations (stream_loop astream self fuel messages)
  = invocations (run_loop self fuel messages)
  /\ stream_working (stream_loop astream self fuel messages)
     = working (run_loop self fuel messages)
  /\ same_end (outcome (run_loop self fuel messages))
       (ended (stream_loop astream self fuel messages)).
Proof.
  intros Hagree. revert messages.
  induction fuel as [|fuel IH]; intros messages; [repeat split|].
  specialize (Hagree messages) as Hm. unfold stream_agrees in Hm.
  cbn [run_loop].
  destruct (llm_with_tools self messages) as [r|e].
  - destruct Hm as (chunks & full & Hstream & Hfull & <-).
    rewrite (stream_loop_cases self fuel _ chunks None Hstream). cbv zeta.
    rewrite Hfull.
    change (tool_calls (message_of_chunk full)) with (chunk_tool_calls full).
    change (ai_content (message_of_chunk full)) with (chunk_content full).
    destruct (negb (truthy_list (chunk_tool_calls full))); [repeat split|].
    destruct (for_tool_calls_stream_messages self (chunk_tool_calls full)
                (messages ++ [AssistantMessage (message_of_chunk full)]))
      as (notices & Hnotices & _).
    rewrite Hnotices.
    destruct (for_tool_calls self _ _) as [messages' [e|]]; cbn [fst snd];
      [repeat split|].
    destruct (IH messages') as (Hinv & Hwork & Hend).
    cbn [streamed invoked stream_invocations invocations stream_working working
         ended outcome].
    rewrite Hinv, Hwork. repeat split. exact Hend.
  - destruct Hm as (chunks & Hstream).
    rewrite (stream_loop_cases self fuel _ chunks (Some e) Hstream).
    repeat split.
Qed.

End stream_facts.

Lemma stream_first_response_witness :
  stream (astream_of (llm_with_tools direct_agent)) direct_agent 1 question None
  = {| yielded :=
         List.filter truthy
           (List.map chunk_content
              [(take 4 (ai_content direct_answer), []);
               (drop 4 (ai_content direct_answer), tool_calls direct_answer)]);
       ended := Finished;
       stream_working := seed question None;
       stream_invocations := [seed question None] |}.
Proof.
  apply (stream_first_response (astream_of (llm_with_tools direct_agent))
           direct_agent 0 question None
           [(take 4 (ai_content direct_answer), []);
            (drop 4 (ai_content direct_answer), tool_calls direct_answer)]
           None).
  - reflexivity.
  - intros full_response _ Hfull. vm_compute in Hfull.
    injection Hfull as <-. reflexivity.
Defined.

Lemma stream_follows_run_witness :
  stream_invocations
    (stream_loop (astream_of (scripted_llm two_calls))
       (agent_with answering_client answering_client two_calls) 2 (seed question None))
  = invocations
      (run_loop (agent_with answering_client answering_client two_calls) 2
         (seed question None))
  /\ stream_working
       (stream_loop (astream_of (scripted_llm two_calls))
          (agent_with answering_client answering_client two_calls) 2 (seed question None))
     = working
         (run_loop (agent_with answering_client answering_client two_calls) 2
            (seed question None))
  /\ same_end
       (outcome
          (run_loop (agent_with answering_client answering_client two_calls) 2
             (seed question None)))
       (ended
          (stream_loop (astream_of (scripted_llm two_calls))
             (agent_with answering_client answering_client two_calls) 2
             (seed question None))).
Proof.
  apply (stream_follows_run (astream_of (scripted_llm two_calls))
           (agent_with answering_client answering_client two_calls) 2
           (seed question None)).
  intros m. unfold stream_agrees, astream_of. cbn [llm_with_tools agent_with].
  destruct (scripted_llm two_calls m) as [r|e].
  - eexists _, _. split; [reflexivity|]. split; [reflexivity|].
    destruct r as [text calls]. unfold message_of_chunk. simpl.
    rewrite take_drop. reflexivity.
  - eexists. reflexivity.
Defined.

(** The stream of the run that makes [two_calls]: a notice per tool call,
    then the answer in its two chunks. *)
Example stream_two_calls :
  yielded
    (stream (astream_of (scripted_llm two_calls))
       (agent_with answering_client answering_client two_calls) 2 question None)
  = [searching_notice; searching_notice; py "Here"; py " are the specs."]
  /\ ended
       (stream (astream_of (scripted_llm two_calls))
          (agent_with answering_client answering_client two_calls) 2 question None)
     = Finished.
Proof. split; vm_compute; reflexivity. Qed.

(* ===================================================================== *)
(** ** The chat history of a session *)
(* ===================================================================== *)




Section history_facts.
Variable agent_stream : str -> list Message -> list str * option Exception.



End history_facts.

(* ===================================================================== *)
(** ** A turn of the chat, end to end *)
(* ===================================================================== *)

Lemma concat_filter_truthy (l : list str) : concat (List.filter truthy l) = concat l.
Proof.
  induction l as [|s l IH]; [reflexivity|].
  destruct s as [|c s]; simpl; [exact IH | rewrite IH; reflexivity].
Qed.

Section turn_facts.
Context {Chunk : Type} `{AIMessageChunk Chunk}.
Variable astream : list Message -> list Chunk * option Exception.

(** The text of summed chunks is the texts of the chunks, one after the
    other, when the sum of two chunks has the text of the first followed by
    that of the second. *)
Lemma consume_content (chunks : list Chunk) (start full : Chunk) :
  (forall a b, chunk_content (chunk_add a b) = chunk_content a ++ chunk_content b) ->
  (consume chunks (Some start)).2 = Some full ->
  chunk_content full = chunk_content start ++ concat (List.map chunk_content chunks).
Proof.
  intros Hadd. revert start. induction chunks as [|chunk chunks IH]; intros start Hfull.
  - simpl in Hfull. injection Hfull as <-. simpl. rewrite app_nil_r. reflexivity.
  - cbn [consume] in Hfull.
    specialize (IH (chunk_add start chunk)).
    destruct (consume chunks (Some (chunk_add start chunk))) as [fragments full'].
    cbn [snd] in *. rewrite (IH Hfull), Hadd, <- app_assoc. reflexivity.
Qed.

(** X15: A turn of the chat that the model answers without asking for a tool:
    the UI gets the non-empty texts of the chunks as tokens, and the
    history grows by the user's message, trimmed, and an assistant message
    whose text is the text of the summed chunks (chunk texts being summed by
    concatenation). *)
Theorem turn_without_tool_calls
    (self : ShoeDiscoveryAgent) (fuel : nat) (chat_history : list Message) (text : str)
    (chunks : list Chunk) (full_response : Chunk) :
  strip text <> [] ->
  astream (seed (strip text) (Some chat_history)) = (chunks, None) ->
  (consume chunks None).2 = Some full_response ->
  chunk_tool_calls full_response = [] ->
  (forall a b, chunk_content (chunk_add a b) = chunk_content a ++ chunk_content b) ->
  (length chat_history + 2 <= 20)%nat ->
  handle_message (agent_stream_of astream self (S fuel)) chat_history text
  = (MessageSend []
     :: List.map StreamToken (List.filter truthy (List.map chunk_content chunks))
     ++ [Update],
     chat_history
     ++ [HumanMessage (strip text);
         AssistantMessage {| ai_content := chunk_content full_response;
                             tool_calls := [] |}]).
Proof.
  intros Hinput Hstream Hfull Hcalls Hadd Hlen.
  assert (Hcontent : concat (List.filter truthy (List.map chunk_content chunks))
                     = chunk_content full_response).
  { rewrite concat_filter_truthy.
    destruct chunks as [|chunk chunks]; [discriminate Hfull|].
    cbn [consume] in Hfull.
    pose proof (consume_content chunks chunk full_response Hadd) as Hc.
    destruct (consume chunks (Some chunk)) as [fragments full']. cbn [snd] in *.
    rewrite (Hc Hfull). reflexivity. }
  unfold handle_message. cbv zeta.
  apply truthy_spec in Hinput. rewrite Hinput. cbn [negb].
  unfold agent_stream_of, stream. cbv zeta.
  rewrite (stream_loop_cases astream self fuel _ chunks None Hstream). cbv zeta.
  rewrite Hfull, Hcalls. cbn [truthy_list negb yielded ended]. rewrite Hcontent.
  replace (20 <? length (chat_history
                         ++ [HumanMessage (strip text);
                             AssistantMessage {| ai_content := chunk_content full_response;
                                                 tool_calls := [] |}]))%nat
    with false
    by (symmetry; apply Nat.ltb_ge; rewrite length_app; simpl; lia).
  reflexivity.
Qed.

End turn_facts.

Lemma turn_without_tool_calls_witness :
  handle_message
    (agent_stream_of (astream_of (llm_with_tools direct_agent)) direct_agent 1)
    [] (py "  What is the drop of the Pegasus 41?  ")
  = (MessageSend []
     :: List.map StreamToken
          (List.filter truthy
             (List.map chunk_content
                [(take 4 (ai_content direct_answer), []);
                 (drop 4 (ai_content direct_answer), tool_calls direct_answer)]))
     ++ [Update],
     []
     ++ [HumanMessage (strip (py "  What is the drop of the Pegasus 41?  "));
         AssistantMessage
           {| ai_content :=
                chunk_content
                  (take 4 (ai_content direct_answer) ++ drop 4 (ai_content direct_answer),
                   tool_calls direct_answer);
              tool_calls := [] |}]).
Proof.
  apply (turn_without_tool_calls (astream_of (llm_with_tools direct_agent))
           direct_agent 0 [] (py "  What is the drop of the Pegasus 41?  ")
           [(take 4 (ai_content direct_answer), []);
            (drop 4 (ai_content direct_answer), tool_calls direct_answer)]
           (take 4 (ai_content direct_answer) ++ drop 4 (ai_content direct_answer),
            tool_calls direct_answer)).
  - vm_compute. discriminate.
  - reflexivity.
  - reflexivity.
  - reflexivity.
  - intros a b. reflexivity.
  - simpl. lia.
Defined.
